(** * eevee: environment variable reader and validator

    A shallow embedding of the library's single TypeScript module
    (envelopes [V], the evaluator [ev], the binder [bind], the built-in
    transformers and the composer [pipe]) together with the part of the
    JavaScript run time those functions call into ([Number], [new Date],
    [toISOString], [String.prototype.match], string indexing and slicing).

    TypeScript types are erased at run time, so an envelope's value is a
    member of the run-time universe [any]; callbacks supplied by the caller
    (readers, transformers, appliers) may have effects and may throw, and
    are modelled in a state-and-exception monad over an arbitrary world. *)

From Stdlib Require Import ZArith QArith Qround Ascii String List Bool Lia.
From stdpp Require Import base option list strings gmap.

Local Open Scope string_scope.
Local Open Scope Z_scope.

(** ** Strings

    JavaScript strings are sequences of UTF-16 code units; the model keeps
    the code units below 256 ([ascii]), which covers every character the
    library itself inspects. *)

Definition code (c : ascii) : Z := Z.of_N (N_of_ascii c).

Definition between (lo hi : Z) (c : ascii) : bool :=
  (lo <=? code c) && (code c <=? hi).

(** [\d] of a regular expression without the unicode flag: [0-9]. *)
Definition is_digit (c : ascii) : bool := between 48 57 c.

Definition digit_val (c : ascii) : Z := code c - 48.

(** [s[i]]: the code unit at an integer index, [undefined] ([None]) for
    every index that is not in [0, length): a negative index is an ordinary
    property key that no string owns. *)
Definition String_index (s : string) (i : Z) : option ascii :=
  if i <? 0 then None else String.get (Z.to_nat i) s.

(** [s.slice(start, end)]: negative positions count from the end, both are
    clamped to the string. *)
Definition String_slice (s : string) (first last : Z) : string :=
  let len := Z.of_nat (String.length s) in
  let from := if first <? 0 then Z.max (len + first) 0 else Z.min first len in
  let to := if last <? 0 then Z.max (len + last) 0 else Z.min last len in
  String.substring (Z.to_nat from) (Z.to_nat (Z.max (to - from) 0)) s.

(** [s.toLowerCase()] on the letters A-Z (and the Latin-1 capitals, which
    no keyword of the library contains). *)
Definition lower_char (c : ascii) : ascii :=
  if between 65 90 c || between 192 214 c || between 216 222 c
  then ascii_of_N (N_of_ascii c + 32) else c.

Fixpoint toLowerCase (s : string) : string :=
  match s with
  | EmptyString => EmptyString
  | String c s' => String (lower_char c) (toLowerCase s')
  end.

(** ** Numbers

    A JavaScript number is a binary64 value, kept in sign-magnitude form
    with the magnitude as the rational it denotes: [Num true 0] is [-0].
    Every operation rounds its exact result to the nearest binary64
    value, ties to even, overflowing to infinity ([binary64]). *)

Inductive number : Type :=
  | NaN
  | Inf (negative : bool)
  | Num (negative : bool) (magnitude : Q).

Definition Qzero (q : Q) : bool := (Qnum q =? 0).

(** The exponent of a positive rational: [2^e <= q < 2^(e+1)]. *)
Definition floor_log2 (q : Q) : Z :=
  let a := Qnum q in
  let b := Zpos (Qden q) in
  let e := Z.log2 a - Z.log2 b in
  if (if 0 <=? e then 2 ^ e * b <=? a else b <=? a * 2 ^ (- e))
  then e else e - 1.

(** The integer nearest to [a / b], the even one of two at equal distance. *)
Definition round_half_even (a b : Z) : Z :=
  let n := a / b in
  match 2 * (a mod b) ?= b with
  | Lt => n
  | Gt => n + 1
  | Eq => if Z.even n then n else n + 1
  end.

(** The binary64 value nearest to a magnitude [q >= 0]: 53 significant
    bits at the exponent of [q], which is at least -1022 (below it the
    values are subnormal), and infinity from [2^1024] on. *)
Definition binary64 (neg : bool) (q : Q) : number :=
  if Qzero q then Num neg 0
  else
    let k := Z.max (floor_log2 q) (-1022) - 52 in
    let n := if 0 <=? k
             then round_half_even (Qnum q) (Zpos (Qden q) * 2 ^ k)
             else round_half_even (Qnum q * 2 ^ (- k)) (Zpos (Qden q)) in
    let r := if 0 <=? k then n * 2 ^ k # 1
             else Qred (n # Z.to_pos (2 ^ (- k))) in
    if Qle_bool (2 ^ 1024 # 1) r then Inf neg else Num neg r.

(** The number of an integer. *)
Definition of_Z (z : Z) : number := binary64 (z <? 0) (Z.abs z # 1).

(** [Number.isNaN] *)
Definition Number_isNaN (n : number) : bool :=
  match n with NaN => true | _ => false end.

(** [x * y] *)
Definition mul (x y : number) : number :=
  match x, y with
  | NaN, _ | _, NaN => NaN
  | Inf a, Inf b => Inf (xorb a b)
  | Inf a, Num b q | Num b q, Inf a => if Qzero q then NaN else Inf (xorb a b)
  | Num a p, Num b q => binary64 (xorb a b) (p * q)
  end.

(** [x + y] *)
Definition add (x y : number) : number :=
  match x, y with
  | NaN, _ | _, NaN => NaN
  | Inf a, Inf b => if Bool.eqb a b then Inf a else NaN
  | Inf a, Num _ _ | Num _ _, Inf a => Inf a
  | Num a p, Num b q =>
      if Bool.eqb a b then binary64 a (p + q)
      else match p ?= q with
           | Eq => Num false 0
           | Gt => binary64 a (p - q)
           | Lt => binary64 b (q - p)
           end
  end%Q.

(** *** [Number(string)]: the StringNumericLiteral grammar *)

(** StrWhiteSpaceChar: TAB, LF, VT, FF, CR, SP, NBSP. *)
Definition is_space (c : ascii) : bool :=
  between 9 13 c || (code c =? 32) || (code c =? 160).

Fixpoint trim_start (s : string) : string :=
  match s with
  | String c s' => if is_space c then trim_start s' else s
  | EmptyString => EmptyString
  end.

Fixpoint trim_end (s : string) : string :=
  match s with
  | EmptyString => EmptyString
  | String c s' =>
      match trim_end s' with
      | EmptyString => if is_space c then EmptyString else String c EmptyString
      | t => String c t
      end
  end.

(** The longest prefix of characters satisfying [p], and the rest. *)
Fixpoint span (p : ascii -> bool) (s : string) : string * string :=
  match s with
  | String c s' =>
      if p c then let '(a, b) := span p s' in (String c a, b)
      else (EmptyString, s)
  | EmptyString => (EmptyString, EmptyString)
  end.

Definition is_empty (s : string) : bool :=
  match s with EmptyString => true | _ => false end.

(** The mathematical value of a digit string in a radix. *)
Fixpoint digits_from (radix : Z) (val : ascii -> Z) (acc : Z) (s : string) : Z :=
  match s with
  | EmptyString => acc
  | String c s' => digits_from radix val (radix * acc + val c) s'
  end.

Definition decimal (s : string) : Z := digits_from 10 digit_val 0 s.

Definition is_hex (c : ascii) : bool :=
  is_digit c || between 65 70 c || between 97 102 c.

Definition hex_val (c : ascii) : Z :=
  if is_digit c then digit_val c
  else if between 65 70 c then code c - 55 else code c - 87.

(** ExponentPart, optional, up to the end of the string. *)
Definition exponent_part (s : string) : option Z :=
  match s with
  | EmptyString => Some 0
  | String c s' =>
      if (code c =? 101) || (code c =? 69) then
        let '(neg, ds) :=
          match s' with
          | String "-" t => (true, t)
          | String "+" t => (false, t)
          | _ => (false, s')
          end in
        let '(d, rest) := span is_digit ds in
        if is_empty d || negb (is_empty rest) then None
        else Some (if neg then - decimal d else decimal d)
      else None
  end.

(** The exact magnitude [m * 10^e], in lowest terms. *)
Definition scale (m e : Z) : Q := Qred (inject_Z m * Qpower (10 # 1) e).

(** StrUnsignedDecimalLiteral *)
Definition unsigned_decimal (s : string) : option (bool -> number) :=
  if String.eqb s "Infinity" then Some Inf
  else
    let '(int, r1) := span is_digit s in
    match r1 with
    | String "." r2 =>
        let '(frac, r3) := span is_digit r2 in
        if is_empty int && is_empty frac then None
        else match exponent_part r3 with
             | Some e =>
                 Some (fun neg =>
                   binary64 neg (scale (decimal (int ++ frac)%string)
                                       (e - Z.of_nat (String.length frac))))
             | None => None
             end
    | _ =>
        if is_empty int then None
        else match exponent_part r1 with
             | Some e => Some (fun neg => binary64 neg (scale (decimal int) e))
             | None => None
             end
    end.

(** NonDecimalIntegerLiteral: 0b, 0o, 0x prefixes, never signed. *)
Definition radix_literal (p : ascii -> bool) (radix : Z) (val : ascii -> Z)
    (s : string) : number :=
  let '(d, rest) := span p s in
  if is_empty d || negb (is_empty rest) then NaN
  else of_Z (digits_from radix val 0 d).

Definition StringToNumber (s : string) : number :=
  match trim_end (trim_start s) with
  | EmptyString => Num false 0
  | String "0" (String ("x" | "X") t) => radix_literal is_hex 16 hex_val t
  | String "0" (String ("o" | "O") t) => radix_literal (between 48 55) 8 digit_val t
  | String "0" (String ("b" | "B") t) => radix_literal (between 48 49) 2 digit_val t
  | String "-" t =>
      match unsigned_decimal t with Some f => f true | None => NaN end
  | String "+" t =>
      match unsigned_decimal t with Some f => f false | None => NaN end
  | t => match unsigned_decimal t with Some f => f false | None => NaN end
  end.

(** ** Dates

    A Date object holds a time value: an integral number of milliseconds
    since the epoch, or NaN ([None]) for an invalid date. *)

Definition msPerDay : Z := 86400000.

(** Year, month and day of month of a day number (days since 1970-01-01)
    in the proleptic Gregorian calendar, the calendar of YearFromTime,
    MonthFromTime and DateFromTime. *)
Definition civil_from_days (day : Z) : Z * Z * Z :=
  let z := day + 719468 in
  let era := z / 146097 in
  let doe := z - era * 146097 in
  let yoe := (doe - doe / 1460 + doe / 36524 - doe / 146096) / 365 in
  let doy := doe - (365 * yoe + yoe / 4 - yoe / 100) in
  let mp := (5 * doy + 2) / 153 in
  let d := doy - (153 * mp + 2) / 5 + 1 in
  let m := if mp <? 10 then mp + 3 else mp - 9 in
  let y := yoe + era * 400 + (if m <=? 2 then 1 else 0) in
  (y, m, d).

Definition digit_char (d : Z) : ascii := ascii_of_N (Z.to_N (48 + d mod 10)).

(** The last [width] decimal digits of [n], zero padded. *)
Fixpoint padded (width : nat) (n : Z) : string :=
  match width with
  | O => EmptyString
  | S w => String.append (padded w (n / 10)) (String (digit_char n) EmptyString)
  end.

(** Years 0 to 9999 print as four digits, the others as a sign and six. *)
Definition year_string (y : Z) : string :=
  if (0 <=? y) && (y <=? 9999) then padded 4 y
  else String.append (if y <? 0 then "-" else "+") (padded 6 (Z.abs y)).

(** [Date.prototype.toISOString] on a valid time value. *)
Definition iso_string (t : Z) : string :=
  let '(y, m, d) := civil_from_days (t / msPerDay) in
  let ms := t mod msPerDay in
  String.concat ""
    [year_string y; "-"; padded 2 m; "-"; padded 2 d; "T";
     padded 2 (ms / 3600000); ":"; padded 2 (ms / 60000 mod 60); ":";
     padded 2 (ms / 1000 mod 60); "."; padded 3 (ms mod 1000); "Z"].

(** TimeClip on an integral time value. *)
Definition TimeClip (t : Z) : option Z :=
  if Z.abs t <=? 8640000000000000 then Some t else None.

(** TimeClip on a number: NaN unless finite and in range, then truncated
    towards zero. *)
Definition TimeClip_number (n : number) : option Z :=
  match n with
  | Num neg q =>
      if Qle_bool q (8640000000000000 # 1) then
        let i := Qnum q / Zpos (Qden q) in
        Some (if neg then - i else i)
      else None
  | _ => None
  end.

(** ** Run-time values, envelopes and errors *)

(** The values an envelope carries at some stage of a pipeline.  An
    object that is no date (a function, a prototype) is kept as the string
    its conversion to a primitive gives. *)
Inductive any : Type :=
  | VUndefined
  | VString (s : string)
  | VNumber (n : number)
  | VBoolean (b : bool)
  | VDate (time : option Z)
  | VObject (primitive : string).

(** [V<T>], with [T] erased.  The field [secret] is called [is_secret]
    here, [secret] being the transformer that sets it. *)
Record V : Type := mkV { value : any; name : string; is_secret : bool }.

(** What a [throw] carries: an [Error] built by the library with its
    message, or an error raised by the run time itself. *)
Inductive exn : Type :=
  | Error (message : string)
  | RangeError
  | TypeError.

(** The outcome of a call: a value returned or an error thrown. *)
Inductive result (A : Type) : Type :=
  | Return (a : A)
  | Throw (e : exn).
Arguments Return {A} a.
Arguments Throw {A} e.

(** ToBoolean: the truthiness tested by [!x] and [if (x)]. *)
Definition ToBoolean (x : any) : bool :=
  match x with
  | VUndefined => false
  | VString s => negb (is_empty s)
  | VNumber NaN => false
  | VNumber (Inf _) => true
  | VNumber (Num _ q) => negb (Qzero q)
  | VBoolean b => b
  | VDate _ => true
  | VObject _ => true
  end.

(** [Number(x)] *)
Definition Number (x : any) : number :=
  match x with
  | VUndefined => NaN
  | VString s => StringToNumber s
  | VNumber n => n
  | VBoolean b => if b then of_Z 1 else of_Z 0
  | VDate (Some t) => of_Z t
  | VDate None => NaN
  | VObject p => StringToNumber p
  end.

(** The string a template literal substitutes for an optional character. *)
Definition show_char (c : option ascii) : string :=
  match c with
  | Some c => String c EmptyString
  | None => "undefined"
  end.

(** [s !== x] for a string [s]: strict equality holds only between two
    strings with the same code units. *)
Definition String_strict_eq (s : string) (x : any) : bool :=
  match x with
  | VString s' => String.eqb s s'
  | _ => false
  end.

#[global] Instance result_ret : MRet result := @Return.
#[global] Instance result_bind : MBind result := λ A B f r,
  match r with
  | Return a => f a
  | Throw e => Throw e
  end.

(** [for (const x of l) { a = body(a, x) }] in a monad: a [throw] in the
    body leaves the loop. *)
Fixpoint for_of `{MBind M, MRet M} {A B : Type}
    (body : A → B → M A) (l : list B) (a : A) : M A :=
  match l with
  | [] => mret a
  | x :: l' => a' ← body a x; for_of body l' a'
  end.

(** ** The duration pattern [/(\d+[smhDMY])+/]

    A token [\d+[smhDMY]] can only be matched with all the digits before
    its unit letter, and the greedy [+] takes every token that follows; no
    part of the pattern comes after it, so the first attempt at a start
    position is the match there. *)

Definition is_unit (c : ascii) : bool :=
  bool_decide (c ∈ ["s"; "m"; "h"; "D"; "M"; "Y"]%char).

Definition snoc (s : string) (c : ascii) : string :=
  String.append s (String c EmptyString).

(** The match anchored at the start of [s]: [whole] is the text of the
    iterations completed so far, [last] the capture of the latest one,
    [digits] the digits read for the iteration in progress.  Result: the
    text matched and the final capture of group 1. *)
Fixpoint match_here (s whole : string) (last : option string) (digits : string)
    : option (string * string) :=
  let stop := (λ tok, (whole, tok)) <$> last in
  match s with
  | String c s' =>
      if is_digit c then match_here s' whole last (snoc digits c)
      else if is_unit c && negb (is_empty digits) then
        let tok := snoc digits c in
        match_here s' (String.append whole tok) (Some tok) EmptyString
      else stop
  | EmptyString => stop
  end.

(** The leftmost start position that matches. *)
Fixpoint exec (s : string) : option (string * string) :=
  match match_here s EmptyString None EmptyString with
  | Some m => Some m
  | None =>
      match s with
      | String _ s' => exec s'
      | EmptyString => None
      end
  end.

(** [x?.match(/(\d+[smhDMY])+/)] for a value that is not [undefined]: the
    array of the match and its one capture group, or [null]; values other
    than strings have no [match] method, and calling it throws. *)
Definition duration_match (x : any) : result (option (list string)) :=
  match x with
  | VUndefined => Return None
  | VString s => Return ((λ '(whole, tok), [whole; tok]) <$> exec s)
  | _ => Throw TypeError
  end.

(** ** The built-in transformers *)

Declare Scope number_scope.
Delimit Scope number_scope with num.
Infix "*" := mul : number_scope.
Infix "+" := add : number_scope.

(** [Date.parse], which the language leaves to the implementation outside
    the ISO format (and which reads a local time in the time zone of the
    host): the time value of a string, [None] for NaN. *)
Class DateParser := Date_parse : string → option Z.

(** The time value of [new Date(x)]. *)
Definition new_Date `{DateParser} (x : any) : option Z :=
  match x with
  | VDate t => t
  | VString s | VObject s => Date_parse s ≫= TimeClip
  | _ => TimeClip_number (Number x)
  end.

(** [date.toISOString()] *)
Definition toISOString (date : option Z) : result string :=
  match date with
  | Some t => Return (iso_string t)
  | None => Throw RangeError
  end.

Definition must (v : V) : result V :=
  if negb (ToBoolean (value v)) then
    Throw (Error (name v ++ " is not defined"))
  else
    Return {| value := value v; name := name v; is_secret := is_secret v |}.

Definition asISODate `{DateParser} (v : V) : result V :=
  let date := new_Date (value v) in
  iso ← toISOString date;
  if negb (String_strict_eq iso (value v)) then
    Throw (Error (name v ++ " is not a valid date"))
  else
    Return {| value := VDate date; name := name v; is_secret := is_secret v |}.

(** The body of the loop of [asDuration]. *)
Definition duration_part (duration : number) (part : string) : result number :=
  let value := Number (VString (String_slice part 0 (-1))) in
  let unit := String_index part (-1) in
  match unit with
  | Some "s"%char => Return (duration + value * of_Z 1000)%num
  | Some "m"%char => Return (duration + value * of_Z 60 * of_Z 1000)%num
  | Some "h"%char => Return (duration + value * of_Z 60 * of_Z 60 * of_Z 1000)%num
  | Some "D"%char =>
      Return (duration + value * of_Z 24 * of_Z 60 * of_Z 60 * of_Z 1000)%num
  | Some "M"%char =>
      Return (duration + value * of_Z 30 * of_Z 24 * of_Z 60 * of_Z 60
                         * of_Z 1000)%num
  | Some "Y"%char =>
      Return (duration + value * of_Z 365 * of_Z 24 * of_Z 60 * of_Z 60
                         * of_Z 1000)%num
  | _ =>
      Throw (Error ("Invalid unit encountered: " ++ show_char unit
                    ++ ". This is a bug, please report this."))
  end.

(** An omitted [defaultValue] is [None]. *)
Definition asDuration (v : V) (defaultValue : option number) : result V :=
  let defaultValue := default (of_Z 0) defaultValue in
  match value v with
  | VUndefined =>
      Return {| value := VNumber defaultValue; name := name v;
                is_secret := is_secret v |}
  | _ =>
      match_ ← duration_match (value v);
      match match_ with
      | None => Throw (Error (name v ++ " is not a valid duration"))
      | Some match_ =>
          duration ← for_of duration_part (drop 1 match_) (of_Z 0);
          Return {| value := VNumber duration; name := name v;
                    is_secret := is_secret v |}
      end
  end.

Definition asInt (v : V) (defaultValue : option number) : result V :=
  let defaultValue := default (of_Z 0) defaultValue in
  match value v with
  | VUndefined =>
      Return {| value := VNumber defaultValue; name := name v;
                is_secret := is_secret v |}
  | _ =>
      let intValue := Number (value v) in
      if Number_isNaN intValue then
        Throw (Error (name v ++ " is not a number"))
      else
        Return {| value := VNumber intValue; name := name v;
                  is_secret := is_secret v |}
  end.

(** [list.includes(x.toLowerCase())]; only strings have [toLowerCase]. *)
Definition includes_lower (l : list string) (x : any) : result bool :=
  match x with
  | VString s => Return (bool_decide (toLowerCase s ∈ l))
  | _ => Throw TypeError
  end.

Definition asBool (v : V) (defaultValue : option bool) : result V :=
  let defaultValue := default false defaultValue in
  match value v with
  | VUndefined =>
      Return {| value := VBoolean defaultValue; name := name v;
                is_secret := is_secret v |}
  | _ =>
      yes ← includes_lower ["yes"; "true"; "on"; "1"] (value v);
      if yes : bool then
        Return {| value := VBoolean true; name := name v;
                  is_secret := is_secret v |}
      else
        no ← includes_lower ["no"; "false"; "off"; "0"] (value v);
        if no : bool then
          Return {| value := VBoolean false; name := name v;
                    is_secret := is_secret v |}
        else
          Throw (Error (name v ++ " is not a valid boolean value."))
  end.

Definition secret (v : V) : V :=
  {| value := value v; name := name v; is_secret := true |}.

(** ** Callbacks: computations over a world

    Readers, transformers and appliers are functions supplied by the
    caller; calling one may change the world (a log, a counter) and may
    throw.  A computation maps the world before to the outcome and the
    world after; what happened before a [throw] stays done. *)

Definition M (W A : Type) : Type := W → result A * W.

#[global] Instance M_ret {W} : MRet (M W) := λ A a w, (Return a, w).
#[global] Instance M_bind {W} : MBind (M W) := λ A B f m w,
  match m w with
  | (Return a, w') => f a w'
  | (Throw e, w') => (Throw e, w')
  end.

(** [BasicReader]: a plain object from names to strings or [undefined]:
    the map holds its own properties, and its prototype is
    [Object.prototype], as for an object literal and for [process.env]. *)
Abbreviation BasicReader := (gmap string (option string)).

(** The names of the functions every plain object inherits from
    [Object.prototype]. *)
Definition Object_prototype_functions : list string :=
  ["constructor"; "hasOwnProperty"; "isPrototypeOf"; "propertyIsEnumerable";
   "toLocaleString"; "toString"; "valueOf"; "__defineGetter__";
   "__defineSetter__"; "__lookupGetter__"; "__lookupSetter__"].

(** What a plain object answers under a name it does not own: the
    function inherited under that name ([constructor] is [Object]), the
    prototype itself under [__proto__], and nothing otherwise.  A built-in
    function converts to the string of its source (here as V8 prints it),
    a plain object to "[object Object]". *)
Definition inherited (name : string) : option any :=
  if String.eqb name "__proto__" then Some (VObject "[object Object]")
  else if bool_decide (name ∈ Object_prototype_functions) then
    Some (VObject ("function "
                   ++ (if String.eqb name "constructor" then "Object" else name)
                   ++ "() { [native code] }"))
  else None.

Section Eevee.
Context {W : Type}.

(** [VT<T>] *)
Definition VT : Type := V → M W V.

(** [Reader] *)
Definition Reader : Type := string → M W V.

(** The type of the second parameter of [bind]. *)
Definition Applier : Type := VT → M W VT.

(** [Reader | BasicReader], told apart by [typeof r === 'function']. *)
Inductive source : Type :=
  | Function (r : Reader)
  | Object (r : BasicReader).

(** A built-in transformer as a callback: it leaves the world alone. *)
Definition stage (f : V → result V) : VT := λ v w, (f v, w).

(** [r[name]] on a plain object: its own property under the name, or
    else the one it inherits. *)
Definition property (r : BasicReader) (name : string) : any :=
  match r !! name with
  | Some (Some s) => VString s
  | Some None => VUndefined
  | None => default VUndefined (inherited name)
  end.

Definition ev (r : source) (name : string) (t : option VT) : M W any :=
  v ← match r with
      | Function r => r name
      | Object r =>
          mret {| value := property r name; name := name; is_secret := false |}
      end;
  match t with
  | Some t => v' ← t v; mret (value v')
  | None => mret (value v)
  end.

(** The arguments of a call are evaluated before the call: [applier
    (transform)] runs before [ev] reads. *)
Definition bind (r : Reader) (applier : option Applier)
    : string → option VT → M W any :=
  λ name transform,
    match applier, transform with
    | Some applier, Some transform =>
        t ← applier transform; ev (Function r) name (Some t)
    | _, Some transform => ev (Function r) name (Some transform)
    | _, None => ev (Function r) name None
    end.

Definition pipe (ts : list VT) : VT :=
  λ initial, for_of (λ value t, t value) ts initial.

End Eevee.

(** ** Hosts and callbacks used in the examples *)

(** The day number of a calendar date, the inverse of [civil_from_days]. *)
Definition days_from_civil (y m d : Z) : Z :=
  let y := if m <=? 2 then y - 1 else y in
  let era := y / 400 in
  let yoe := y - era * 400 in
  let doy := (153 * (if 2 <? m then m - 3 else m + 9) + 2) / 5 + d - 1 in
  let doe := yoe * 365 + yoe / 4 - yoe / 100 + doy in
  era * 146097 + doe - 719468.

(** The shape of a string: every digit replaced by a zero. *)
Fixpoint shape (s : string) : string :=
  match s with
  | EmptyString => EmptyString
  | String c s' => String (if is_digit c then "0"%char else c) (shape s')
  end.

Definition field (s : string) (pos len : nat) : Z :=
  decimal (String.substring pos len s).

(** A host whose [Date.parse] recognises the simplified ISO format with a
    four-digit year, either in full and in UTC or as a date alone (which
    is midnight UTC), and nothing else. *)
Definition strict_iso_parse (s : string) : option Z :=
  let s := if String.eqb (shape s) "0000-00-00"
           then String.append s "T00:00:00.000Z" else s in
  if String.eqb (shape s) "0000-00-00T00:00:00.000Z" then
    let '(y, m, d) := (field s 0 4, field s 5 2, field s 8 2) in
    let '(hh, mm, ss, ms) := (field s 11 2, field s 14 2, field s 17 2, field s 20 3) in
    let day := days_from_civil y m d in
    if bool_decide (civil_from_days day = (y, m, d))
       && (hh <? 24) && (mm <? 60) && (ss <? 60)
    then Some (day * msPerDay + hh * 3600000 + mm * 60000 + ss * 1000 + ms)
    else None
  else None.

Definition strict_host : DateParser := strict_iso_parse.

(** An applier that counts its own invocations in the world and hands the
    transformer back. *)
Definition counting_applier : @Applier nat := λ t count, (Return t, S count).

(** A transformer that counts its invocations. *)
Definition counting_stage : @VT nat := λ v count, (Return v, S count).

(** A reader over a plain object, as in the documentation of the library. *)
Definition objectReader {W} (env : BasicReader) : @Reader W :=
  λ name, mret {| value := property env name; name := name; is_secret := false |}.


(** ** The functions of the documentation

    The README builds readers, appliers and a composed validator out of
    the library; they are embedded as they are written there. *)

(** [processEnvReader(env)]: a reader over a plain object. *)
Definition processEnvReader {W} (env : BasicReader) : @Reader W :=
  λ name, mret {| value := property env name; name := name; is_secret := false |}.

(** [s.indexOf(c) < 0] is [negb (contains c s)]. *)
Fixpoint contains (c : ascii) (s : string) : bool :=
  match s with
  | EmptyString => false
  | String c' s' => Ascii.eqb c c' || contains c s'
  end.

(** [[a-z]] *)
Definition is_lower (c : ascii) : bool := between 97 122 c.

Fixpoint all_lower (s : string) : bool :=
  match s with
  | EmptyString => true
  | String c s' => is_lower c && all_lower s'
  end.

(** [/\.[a-z]{2,}$/.test(s)]: without the multiline flag [$] is the end
    of the string, so a match is a dot after which the string goes on
    with lower-case letters only, two at least. *)
Fixpoint test_tld (s : string) : bool :=
  match s with
  | EmptyString => false
  | String c s' =>
      (Ascii.eqb c "." && all_lower s' && (2 <=? String.length s')%nat)
      || test_tld s'
  end.

(** Only strings have [indexOf]; on another defined value the call throws. *)
Definition validEmail (v : V) : result V :=
  match value v with
  | VUndefined => Return v
  | VString s =>
      if negb (contains "@" s) || negb (test_tld s) then
        Throw (Error "Value must be an email address.")
      else Return v
  | _ => Throw TypeError
  end.

Definition mustBeEmail (v : V) : result V :=
  v' ← must v; validEmail v'.

(** *** Logging appliers *)

(** What a template literal prints for a number, for a date and for an
    error raised by the run time: left to the host (the format of a date
    depends on its time zone, the messages of run-time errors on the
    engine). *)
Class Printer := {
  Number_toString : number → string;
  Date_toString : option Z → string;
  engine_error : exn → string
}.

(** [`${x}`] *)
Definition ToString `{Printer} (x : any) : string :=
  match x with
  | VUndefined => "undefined"
  | VString s => s
  | VNumber n => Number_toString n
  | VBoolean b => if b then "true" else "false"
  | VDate t => Date_toString t
  | VObject p => p
  end.

(** [`${e}`]: [Error.prototype.toString] for the errors of the library. *)
Definition exn_ToString `{Printer} (e : exn) : string :=
  match e with
  | Error m => if is_empty m then "Error" else "Error: " ++ m
  | _ => engine_error e
  end.

(** [throw e] *)
Definition throw {W A} (e : exn) : M W A := λ w, (Throw e, w).

(** [try { m } catch (e) { handler(e) }] *)
Definition try_catch {W A} (m : M W A) (handler : exn → M W A) : M W A :=
  λ w, match m w with
       | (Return a, w') => (Return a, w')
       | (Throw e, w') => handler e w'
       end.

(** A logger: the two methods the appliers call. *)
Record Logger {W : Type} := mkLogger {
  log : string → M W unit;
  error : string → M W unit
}.
Arguments Logger : clear implicits.

Definition createNestLoggerApplier `{Printer} {W} (logger : Logger W)
    : @Applier W :=
  λ transform, mret (λ v,
    result ← try_catch (transform v)
                (λ e, _ ← error logger (name v ++ ": " ++ exn_ToString e);
                      throw e);
    _ ← (if is_secret result
         then log logger (name v ++ " = ********")
         else log logger (name v ++ " = " ++ ToString (value result)));
    mret result).

(** The console: the lines written so far, each to its stream. *)
Inductive console_line : Type :=
  | stdout (line : string)
  | stderr (line : string).

Definition console : Logger (list console_line) :=
  {| log := λ line w, (Return (), (w ++ [stdout line])%list);
     error := λ line w, (Return (), (w ++ [stderr line])%list) |}.

Definition consoleLoggerApplier `{Printer} : @Applier (list console_line) :=
  λ transform, mret (λ v,
    result ← try_catch (transform v)
                (λ e, _ ← error console (name v ++ ": " ++ exn_ToString e);
                      throw e);
    _ ← (if is_secret result
         then log console (name v ++ " = ********")
         else log console (name v ++ " = " ++ ToString (value result)));
    mret result).

(** A host that prints numbers and dates as a fixed word. *)
Definition plain_printer : Printer :=
  {| Number_toString := λ _, "<number>";
     Date_toString := λ _, "<date>";
     engine_error := λ _, "<error>" |}.

(** The built-in transformers as stages, defaults included. *)
Inductive builtin `{DateParser} : (V → result V) → Prop :=
  | builtin_must : builtin must
  | builtin_asISODate : builtin asISODate
  | builtin_asDuration d : builtin (λ v, asDuration v d)
  | builtin_asInt d : builtin (λ v, asInt v d)
  | builtin_asBool d : builtin (λ v, asBool v d)
  | builtin_secret : builtin (λ v, Return (secret v)).

(** *** Callbacks that record their calls *)

(** What a world of calls records: the applier was called, the reader was
    called with a name, a stage was run. *)
Inductive event : Type :=
  | Applied
  | Read (name : string)
  | Ran (index : nat).

Definition tracing_applier : @Applier (list event) :=
  λ t calls, (Return t, (calls ++ [Applied])%list).

Definition tracing_reader (env : BasicReader) : @Reader (list event) :=
  λ name calls,
    (Return {| value := property env name; name := name; is_secret := false |},
     (calls ++ [Read name])%list).

Definition tracing_stage (i : nat) : @VT (list event) :=
  λ v calls, (Return v, (calls ++ [Ran i])%list).

(** ** Vocabulary of the statements *)

(** The string holds a digit directly followed by a unit letter: the
    shortest text the duration pattern can match. *)
Fixpoint has_token (s : string) : bool :=
  match s with
  | String d (String u _ as s') => (is_digit d && is_unit u) || has_token s'
  | _ => false
  end.

(** Reading on from a position of [s]: a unit letter comes after a run of
    digits that is not empty ([seen]: a digit was read just before). *)
Fixpoint token_ahead (s : string) (seen : bool) : bool :=
  match s with
  | String c s' => if is_digit c then token_ahead s' true else is_unit c && seen
  | EmptyString => false
  end.

(** The values a reader yields: a string or [undefined]. *)
Definition raw (x : any) : Prop := x = VUndefined ∨ ∃ s, x = VString s.

(** [v'] carries the name and the secrecy of [v]. *)
Definition same_tags (v v' : V) : Prop :=
  name v' = name v ∧ is_secret v' = is_secret v.

(** The raw envelope of a lookup: what the reader returns, or the
    property of the plain object under the name, not secret. *)
Definition raw_envelope {W} (r : source) (name : string) : M W V :=
  match r with
  | Function r => r name
  | Object r => mret (mkV (property r name) name false)
  end.

(** Every character of the string satisfies [p]. *)
Fixpoint every (p : ascii → bool) (s : string) : bool :=
  match s with
  | EmptyString => true
  | String c s' => p c && every p s'
  end.

(** The words [asBool] reads as true and as false. *)
Definition truthy : list string := ["yes"; "true"; "on"; "1"].
Definition falsy : list string := ["no"; "false"; "off"; "0"].

(** The line [consoleLoggerApplier] writes for an outcome. *)
Definition console_report `{Printer} (v : V) (outcome : result V) : console_line :=
  match outcome with
  | Return r =>
      stdout (if is_secret r then name v ++ " = ********"
              else name v ++ " = " ++ ToString (value r))
  | Throw e => stderr (name v ++ ": " ++ exn_ToString e)
  end.

(** * Properties *)

#[global] Arguments iso_string : simpl never.
#[global] Arguments StringToNumber : simpl never.
#[global] Arguments exec : simpl never.

(** ** The run-time model on examples *)

Example Number_examples :
  StringToNumber "42" = of_Z 42
  ∧ StringToNumber "" = of_Z 0
  ∧ StringToNumber "  10 " = of_Z 10
  ∧ StringToNumber "-0" = Num true 0
  ∧ StringToNumber "4.25e1" = Num false (85 # 2)
  ∧ StringToNumber "0x1F" = of_Z 31
  ∧ StringToNumber "-Infinity" = Inf true
  ∧ StringToNumber "not-a-number" = NaN
  ∧ StringToNumber "12px" = NaN
  ∧ StringToNumber "." = NaN.
Proof. repeat split; reflexivity. Qed.

Example toISOString_examples :
  iso_string 0 = "1970-01-01T00:00:00.000Z"
  ∧ iso_string (-1) = "1969-12-31T23:59:59.999Z"
  ∧ iso_string 1709210096789 = "2024-02-29T12:34:56.789Z"
  ∧ iso_string 8640000000000000 = "+275760-09-13T00:00:00.000Z"
  ∧ iso_string (-8640000000000000) = "-271821-04-20T00:00:00.000Z".
Proof. repeat split; reflexivity. Qed.

Example match_examples :
  exec "90s" = Some ("90s", "90s")
  ∧ exec "1h30m" = Some ("1h30m", "30m")
  ∧ exec "ab12x3D4Y5" = Some ("3D4Y", "4Y")
  ∧ exec "12" = None
  ∧ exec "s" = None.
Proof. repeat split; reflexivity. Qed.

Example index_and_slice_examples :
  String_index "90s" (-1) = None
  ∧ String_index "90s" 2 = Some "s"%char
  ∧ String_slice "90s" 0 (-1) = "90".
Proof. repeat split; reflexivity. Qed.

Example asISODate_examples :
  @asISODate strict_host (mkV (VString "2024-02-29T12:34:56.789Z") "D" true) =
    Return (mkV (VDate (Some 1709210096789)) "D" true)
  ∧ @asISODate strict_host (mkV (VString "2024-02-29") "D" true) =
    Throw (Error "D is not a valid date")
  ∧ @asISODate strict_host (mkV (VString "") "D" true) = Throw RangeError.
Proof. repeat split; reflexivity. Qed.

Example asBool_examples :
  asBool (mkV (VString "On") "B" false) None = Return (mkV (VBoolean true) "B" false)
  ∧ asBool (mkV (VString "FALSE") "B" false) None = Return (mkV (VBoolean false) "B" false)
  ∧ asBool (mkV VUndefined "B" false) (Some true) = Return (mkV (VBoolean true) "B" false)
  ∧ asBool (mkV (VString "maybe") "B" false) None =
    Throw (Error "B is not a valid boolean value.").
Proof. repeat split; reflexivity. Qed.

(** ** Shared facts *)

(** No string has a character at index -1. *)
Lemma String_index_negative (s : string) (i : Z) :
  i < 0 → String_index s i = None.
Proof.
  intros Hi. unfold String_index.
  destruct (Z.ltb_spec i 0) as [_ | Hge]; [reflexivity | lia].
Qed.

(** Every iteration of the loop of [asDuration] leaves through the
    [default] branch of the [switch]. *)
Lemma duration_part_throws (duration : number) (part : string) :
  duration_part duration part =
  Throw (Error "Invalid unit encountered: undefined. This is a bug, please report this.").
Proof. reflexivity. Qed.

(** A built-in stage leaves the world as it found it, and so does a
    pipeline of built-in stages. *)
Lemma pipe_stages_world {W} (fs : list (V → result V)) (v : V) (w : W) :
  (pipe (stage <$> fs) v w).2 = w.
Proof.
  revert v. induction fs as [| f fs IH]; intros v; [reflexivity |].
  unfold pipe in *. cbn. unfold mbind, M_bind, stage at 1.
  destruct (f v) as [v' | e]; [apply IH | reflexivity].
Qed.

(** ** Durations *)

(** C1 (the code on the documented examples): on [undefined]
    [asDuration] returns the default, 0 when there is none, and 5000 for
    the default 5000; on "90s" and on "1D" it returns no number: it throws
    the error of the [default] branch of its [switch], having read the
    unit of the token at index -1. *)
Theorem asDuration_examples :
  (∀ n sec d, asDuration (mkV VUndefined n sec) d =
              Return (mkV (VNumber (default (of_Z 0) d)) n sec))
  ∧ asDuration (mkV VUndefined "T" false) (Some (of_Z 5000)) =
    Return (mkV (VNumber (of_Z 5000)) "T" false)
  ∧ asDuration (mkV (VString "90s") "T" false) None =
    Throw (Error "Invalid unit encountered: undefined. This is a bug, please report this.")
  ∧ asDuration (mkV (VString "1D") "T" false) None =
    Throw (Error "Invalid unit encountered: undefined. This is a bug, please report this.").
Proof. repeat split; reflexivity. Qed.

(** *** The pattern matches where a digit meets a unit letter *)

Lemma unit_not_digit (c : ascii) : is_unit c = true → is_digit c = false.
Proof.
  unfold is_unit. intros Hc%bool_decide_eq_true.
  repeat (apply elem_of_cons in Hc as [-> | Hc]; [reflexivity |]).
  by apply elem_of_nil in Hc.
Qed.

Lemma snoc_not_empty (s : string) (c : ascii) : is_empty (snoc s c) = false.
Proof. destruct s; reflexivity. Qed.

(** Once an iteration is complete the anchored match succeeds. *)
Lemma match_here_last (s whole tok digits : string) :
  is_Some (match_here s whole (Some tok) digits).
Proof.
  revert whole tok digits. induction s as [| c s IH]; intros whole tok digits; cbn.
  - eauto.
  - destruct (is_digit c); [apply IH |].
    destruct (is_unit c && negb (is_empty digits)); [apply IH | eauto].
Qed.

Lemma match_here_first (s whole digits : string) :
  is_Some (match_here s whole None digits) ↔
  token_ahead s (negb (is_empty digits)) = true.
Proof.
  revert whole digits. induction s as [| c s IH]; intros whole digits; cbn.
  - split; [intros [m [=]] | discriminate].
  - destruct (is_digit c).
    + rewrite IH, snoc_not_empty. reflexivity.
    + destruct (is_unit c && negb (is_empty digits)).
      * split; [reflexivity | intros _; apply match_here_last].
      * split; [intros [m [=]] | discriminate].
Qed.

Lemma has_token_tail (c : ascii) (s : string) :
  has_token s = true → has_token (String c s) = true.
Proof.
  destruct s as [| u s]; [discriminate |]. intros Hs.
  change (is_digit c && is_unit u || has_token (String u s) = true).
  rewrite Hs. apply orb_true_r.
Qed.

Lemma has_token_head (d u : ascii) (s : string) :
  has_token (String d (String u s)) = true ↔
  is_digit d && is_unit u = true ∨ has_token (String u s) = true.
Proof.
  change (has_token (String d (String u s)))
    with (is_digit d && is_unit u || has_token (String u s)).
  apply orb_true_iff.
Qed.

Lemma token_ahead_has_token (s : string) :
  (token_ahead s false = true → has_token s = true)
  ∧ (token_ahead s true = true →
     (∃ u rest, s = String u rest ∧ is_unit u = true) ∨ has_token s = true).
Proof.
  induction s as [| c s [_ IH]]; [split; discriminate |].
  assert (is_digit c = true → token_ahead s true = true → has_token (String c s) = true)
    as Hdigit.
  { intros Hc [(u & rest & -> & Hu) | Hs]%IH.
    - apply has_token_head. left. rewrite Hc, Hu. reflexivity.
    - by apply has_token_tail. }
  cbn [token_ahead]. destruct (is_digit c) eqn:Hc.
  - split; [| right]; auto.
  - rewrite andb_false_r, andb_true_r. split; [discriminate | eauto].
Qed.

(** The pattern matches somewhere in [s] exactly when [s] holds a digit
    directly followed by a unit letter. *)
Lemma exec_has_token (s : string) : is_Some (exec s) ↔ has_token s = true.
Proof.
  induction s as [| d s IH].
  - cbn. split; [intros [m [=]] | discriminate].
  - change (exec (String d s)) with
      (match match_here (String d s) EmptyString None EmptyString with
       | Some m => Some m
       | None => exec s
       end).
    split.
    + destruct (match_here (String d s) EmptyString None EmptyString) as [m |] eqn:Hm.
      * intros _. apply token_ahead_has_token.
        apply (match_here_first (String d s) EmptyString EmptyString). eauto.
      * intros Hs%IH. by apply has_token_tail.
    + intros Htok.
      destruct (match_here (String d s) EmptyString None EmptyString) as [m |] eqn:Hm;
        [eauto |].
      apply IH. destruct s as [| u s]; [discriminate |].
      apply has_token_head in Htok as [[Hd Hu]%andb_true_iff | Hs]; [| done].
      assert (is_Some (match_here (String d (String u s)) EmptyString None EmptyString))
        as [m' Hm']; [| congruence].
      apply match_here_first. cbn.
      rewrite Hd, (unit_not_digit u Hu), Hu. reflexivity.
Qed.

(** C2 (what the code does on every string): [asDuration] throws
    "<name> is not a valid duration" when the string holds no digit
    directly followed by a unit letter, that is when the pattern matches
    nowhere in it, and otherwise always reaches the "Invalid unit
    encountered" branch; it never returns. *)
Theorem asDuration_string (n : string) (sec : bool) (s : string)
    (d : option number) :
  asDuration (mkV (VString s) n sec) d =
  if has_token s
  then Throw (Error "Invalid unit encountered: undefined. This is a bug, please report this.")
  else Throw (Error (n ++ " is not a valid duration")).
Proof.
  unfold asDuration; cbn.
  pose proof (exec_has_token s) as Hexec.
  destruct (exec s) as [[whole tok] |]; cbn.
  - rewrite (proj1 Hexec); eauto.
  - destruct (has_token s); [| reflexivity].
    destruct (proj2 Hexec eq_refl) as [m [=]].
Qed.

(** ** Presence *)

(** C8: on a defined non-empty string [must] returns the envelope with
    the same value; on a raw envelope it throws exactly when the value is
    [undefined] or the empty string, and then the error is "<name> is not
    defined". *)
Theorem must_spec (v : V) :
  raw (value v) →
  (∀ s, value v = VString s → s ≠ "" →
        must v = Return (mkV (VString s) (name v) (is_secret v)))
  ∧ ((∃ e, must v = Throw e) ↔ value v = VUndefined ∨ value v = VString "")
  ∧ (∀ e, must v = Throw e → e = Error (name v ++ " is not defined")).
Proof.
  intros Hraw. destruct v as [x n sec]; cbn in *. split; [| split].
  - intros s -> Hs. destruct s; [congruence | reflexivity].
  - split.
    + intros [e He]. destruct Hraw as [-> | [s ->]]; [by left |].
      destruct s; [by right | discriminate].
    + intros [-> | ->]; eexists; reflexivity.
  - intros e. unfold must; cbn.
    destruct (ToBoolean x); cbn; congruence.
Qed.

Lemma must_spec_witness :
  must (mkV (VString "localhost") "HOST" false) =
  Return (mkV (VString "localhost") "HOST" false).
Proof.
  apply (must_spec (mkV (VString "localhost") "HOST" false)).
  - right. exists "localhost". reflexivity.
  - reflexivity.
  - discriminate.
Defined.

(** ** Integers *)

(** C9: [asInt] returns the default (0 when there is none) on
    [undefined]; on a string it returns [Number] of the string, and throws
    "<name> is not a number" exactly when that is NaN; the empty string
    gives 0; "42" gives 42, [undefined] with default 7 gives 7, and
    "not-a-number" throws. *)
Theorem asInt_spec :
  (∀ n sec d, asInt (mkV VUndefined n sec) d =
              Return (mkV (VNumber (default (of_Z 0) d)) n sec))
  ∧ (∀ n sec s d,
       asInt (mkV (VString s) n sec) d =
       if Number_isNaN (StringToNumber s)
       then Throw (Error (n ++ " is not a number"))
       else Return (mkV (VNumber (StringToNumber s)) n sec))
  ∧ (∀ n sec d, asInt (mkV (VString "") n sec) d =
                Return (mkV (VNumber (of_Z 0)) n sec))
  ∧ asInt (mkV (VString "42") "X" false) None =
    Return (mkV (VNumber (of_Z 42)) "X" false)
  ∧ asInt (mkV VUndefined "X" false) (Some (of_Z 7)) =
    Return (mkV (VNumber (of_Z 7)) "X" false)
  ∧ asInt (mkV (VString "not-a-number") "X" false) None =
    Throw (Error "X is not a number").
Proof. repeat split; reflexivity. Qed.

(** ** Dates *)

(** What [asISODate] does on a string, for every host. *)
Lemma asISODate_string `{DateParser} (n : string) (sec : bool) (s : string) :
  asISODate (mkV (VString s) n sec) =
  match Date_parse s ≫= TimeClip with
  | None => Throw RangeError
  | Some t =>
      if String.eqb (iso_string t) s
      then Return (mkV (VDate (Some t)) n sec)
      else Throw (Error (n ++ " is not a valid date"))
  end.
Proof.
  unfold asISODate; cbn.
  destruct (Date_parse s ≫= TimeClip) as [t |]; cbn; [| reflexivity].
  destruct (String.eqb (iso_string t) s); reflexivity.
Qed.

(** C7 (the code on a string that is no date): when the host parses the
    string to NaN, [asISODate] throws the RangeError of [toISOString], not
    "<name> is not a valid date"; it returns exactly when the string is
    the ISO form of the date it parses to, and then returns that date. *)
Theorem asISODate_invalid_date `{DateParser} (n : string) (sec : bool) (s : string) :
  (Date_parse s = None → asISODate (mkV (VString s) n sec) = Throw RangeError)
  ∧ (∀ v', asISODate (mkV (VString s) n sec) = Return v' ↔
           ∃ t, Date_parse s ≫= TimeClip = Some t ∧ iso_string t = s
                ∧ v' = mkV (VDate (Some t)) n sec).
Proof.
  rewrite asISODate_string. split.
  - intros ->. reflexivity.
  - intros v'. destruct (Date_parse s ≫= TimeClip) as [t |].
    + destruct (String.eqb_spec (iso_string t) s) as [Heq | Hne].
      * split; [intros [= <-]; eauto | intros (t' & [= <-] & _ & ->); reflexivity].
      * split; [discriminate | intros (t' & [= <-] & Heq & _); contradiction].
    + split; [discriminate | intros (t' & [=] & _)].
Qed.

Lemma asISODate_invalid_date_witness :
  @asISODate strict_host (mkV (VString "not-a-date") "D" false) = Throw RangeError.
Proof.
  apply (@asISODate_invalid_date strict_host "D" false "not-a-date").
  reflexivity.
Defined.

(** ** Name and secrecy *)

Ltac returned :=
  repeat match goal with
    | |- _ → _ => intros ?
    | H : Return _ = Return _ |- _ => injection H as <-
    | H : Throw _ = Return _ |- _ => discriminate H
    | H : context [match ?x with _ => _ end] |- _ => destruct x eqn:?; cbn in H
    | |- same_tags _ _ => split; reflexivity
    end.

(** C6: whenever a built-in transformer returns, the envelope returned
    has the name of its input; all but [secret] return the secrecy flag of
    the input too; [secret] sets the flag and keeps value and name, so
    applying it twice is applying it once. *)
Theorem builtins_keep_tags `{DateParser} (v v' : V) :
  (must v = Return v' → same_tags v v')
  ∧ (asISODate v = Return v' → same_tags v v')
  ∧ (∀ d, asDuration v d = Return v' → same_tags v v')
  ∧ (∀ d, asInt v d = Return v' → same_tags v v')
  ∧ (∀ d, asBool v d = Return v' → same_tags v v')
  ∧ secret v = mkV (value v) (name v) true
  ∧ secret (secret v) = secret v.
Proof.
  repeat apply conj; try reflexivity.
  - unfold must. returned.
  - unfold asISODate, mbind, result_bind. returned.
  - unfold asDuration, mbind, result_bind. intros d Hd.
    destruct (value v) eqn:Hx; cbn in Hd;
      try destruct (exec s) as [[whole tok] |]; cbn in Hd; returned.
  - unfold asInt. returned.
  - unfold asBool, mbind, result_bind. returned.
Qed.

Lemma builtins_keep_tags_witness :
  same_tags (mkV (VString "8080") "PORT" true)
            (mkV (VNumber (of_Z 8080)) "PORT" true).
Proof.
  destruct (@builtins_keep_tags strict_host
              (mkV (VString "8080") "PORT" true)
              (mkV (VNumber (of_Z 8080)) "PORT" true))
    as (_ & _ & _ & HasInt & _).
  apply (HasInt None). reflexivity.
Defined.

(** ** Composition *)

(** A pipeline in two parts runs the first part, then the second. *)
Lemma pipe_app {W} (ts1 ts2 : list VT) (v : V) (w : W) :
  pipe (ts1 ++ ts2) v w = (pipe ts1 v ≫= pipe ts2) w.
Proof.
  revert v w. induction ts1 as [| t ts1 IH]; intros v w; [reflexivity |].
  unfold pipe in *. cbn. unfold mbind, M_bind in *.
  destruct (t v w) as [[v1 | e] w1]; [apply IH | reflexivity].
Qed.

(** C3: [pipe] of no transformer returns the envelope it is given;
    [pipe] of [t0 ... tn] runs the stages from left to right, each on the
    envelope returned by the one before; when the stages before [t] have
    returned and [t] throws, the pipeline throws the same error and the
    world is the one [t] left, whatever stages follow; [pipe(must, asInt)]
    returns 10 on the value "10", and on [undefined] throws the error of
    [must] whatever follows [must]. *)
Theorem pipe_spec {W} :
  (∀ (v : V) (w : W), pipe [] v w = (Return v, w))
  ∧ (∀ (t : VT) ts v (w : W), pipe (t :: ts) v w = (t v ≫= pipe ts) w)
  ∧ (∀ ts (t : VT) v (w : W), pipe (ts ++ [t]) v w = (pipe ts v ≫= t) w)
  ∧ (∀ ts1 (t : VT) ts2 v (w : W) v1 w1 e w2,
       pipe ts1 v w = (Return v1, w1) →
       t v1 w1 = (Throw e, w2) →
       pipe (ts1 ++ t :: ts2) v w = (Throw e, w2))
  ∧ (∀ w : W,
       pipe [stage must; stage (λ v, asInt v None)]
            (mkV (VString "10") "P" false) w =
       (Return (mkV (VNumber (of_Z 10)) "P" false), w))
  ∧ (∀ n sec (rest : list VT) (w : W),
       pipe (stage must :: rest) (mkV VUndefined n sec) w =
       (Throw (Error (n ++ " is not defined")), w)).
Proof.
  repeat apply conj; try reflexivity.
  - intros ts t v w. rewrite pipe_app. unfold mbind, M_bind.
    destruct (pipe ts v w) as [[v1 | e] w1]; [| reflexivity].
    unfold pipe; cbn. unfold mbind, M_bind.
    destruct (t v1 w1) as [[v2 | e] w2]; reflexivity.
  - intros ts1 t ts2 v w v1 w1 e w2 Hbefore Hthrow.
    rewrite pipe_app. unfold mbind, M_bind. rewrite Hbefore.
    unfold pipe; cbn. unfold mbind, M_bind. rewrite Hthrow. reflexivity.
Qed.

Lemma pipe_spec_witness :
  pipe ([counting_stage] ++ stage must :: [counting_stage])
       (mkV VUndefined "P" false) 0%nat =
  (Throw (Error "P is not defined"), 1%nat).
Proof.
  destruct (@pipe_spec nat) as (_ & _ & _ & Habort & _).
  apply Habort with (v1 := mkV VUndefined "P" false) (w1 := 1%nat); reflexivity.
Defined.

(** ** Evaluation *)

(** A name the object literal [{}] does not own and still answers to:
    [ev({}, "constructor")] is the function [Object], not [undefined]. *)
Lemma ev_inherited_key_counterexample :
  (∅ : BasicReader) !! "constructor" = None
  ∧ ev (W := unit) (Object ∅) "constructor" None () =
    (Return (VObject "function Object() { [native code] }"), ())
  ∧ ev (W := unit) (Object ∅) "constructor" None () ≠ (Return VUndefined, ()).
Proof. repeat split. discriminate. Qed.

(** C4 (amended): [ev] calls a reader with the name and wraps the
    property of a plain object; without a transformer it returns the
    value of the raw envelope: the string the object owns under the name,
    [undefined] for a name the object neither owns nor inherits from
    [Object.prototype], and the inherited value for a name it inherits;
    with a transformer it returns the value of the envelope the
    transformer returns, and an error thrown by the transformer is the
    error thrown by [ev]; [ev({KEY:"v"}, "KEY")] is "v" and
    [ev({}, "MISSING")] is [undefined]. *)
Theorem ev_spec {W} :
  (∀ (r : source) name (w : W),
     ev r name None w = (v ← raw_envelope r name; mret (value v)) w)
  ∧ (∀ (r : source) name (t : VT) (w : W),
     ev r name (Some t) w =
     (v ← raw_envelope r name; v' ← t v; mret (value v')) w)
  ∧ (∀ (r : BasicReader) name (w : W),
     ev (Object r) name None w = (Return (property r name), w))
  ∧ (∀ (r : BasicReader) name (w : W),
     r !! name = None → inherited name = None →
     ev (Object r) name None w = (Return VUndefined, w))
  ∧ (∀ (r : source) name (t : VT) (w : W) v w1 e w2,
     raw_envelope r name w = (Return v, w1) →
     t v w1 = (Throw e, w2) →
     ev r name (Some t) w = (Throw e, w2))
  ∧ (∀ w : W,
     ev (Object {[ "KEY" := Some "v" ]}) "KEY" None w = (Return (VString "v"), w))
  ∧ (∀ w : W, ev (Object ∅) "MISSING" None w = (Return VUndefined, w))
  ∧ (∀ (r : BasicReader) name s (w : W),
     r !! name = Some (Some s) →
     ev (Object r) name None w = (Return (VString s), w))
  ∧ (∀ (r : BasicReader) name x (w : W),
     r !! name = None → inherited name = Some x →
     ev (Object r) name None w = (Return x, w)).
Proof.
  repeat apply conj.
  - intros [r | r] name w; reflexivity.
  - intros [r | r] name t w; reflexivity.
  - reflexivity.
  - intros r name w Hmissing Hplain. cbn. unfold property.
    rewrite Hmissing, Hplain. reflexivity.
  - intros r name t w v w1 e w2 Hraw Hthrow.
    assert (ev r name (Some t) w =
            (v ← raw_envelope r name; v' ← t v; mret (value v')) w) as ->
      by (destruct r; reflexivity).
    unfold mbind, M_bind. rewrite Hraw, Hthrow. reflexivity.
  - reflexivity.
  - reflexivity.
  - intros r name s w Hown. cbn. unfold property. rewrite Hown. reflexivity.
  - intros r name x w Hmissing Hproto. cbn. unfold property.
    rewrite Hmissing, Hproto. reflexivity.
Qed.

Lemma ev_spec_witness :
  ev (W := unit) (Object ∅) "PORT" (Some (stage must)) () =
    (Throw (Error "PORT is not defined"), ())
  ∧ ev (W := unit) (Object {[ "HOME" := Some "/root" ]}) "PORT" None () =
    (Return VUndefined, ()).
Proof.
  destruct (@ev_spec unit) as (_ & _ & _ & Hmissing & Hthrow & _).
  split.
  - apply Hthrow with (v := mkV VUndefined "PORT" false) (w1 := ()); reflexivity.
  - apply Hmissing; reflexivity.
Defined.

(** ** Binding *)

(** C5: the evaluator bound to a reader and an applier, called with a
    name and a transformer, calls the applier on that transformer and
    evaluates with the transformer it gets back; bound to a reader alone
    it evaluates with the transformer itself; called with a name alone it
    evaluates without one, which yields the value the reader returns.  A
    counting applier counts one invocation per call, however many built-in
    stages the piped transformer has. *)
Theorem bind_spec {W} :
  (∀ (r : Reader) (a : Applier) name (t : VT) (w : W),
     bind r (Some a) name (Some t) w =
     (t' ← a t; ev (Function r) name (Some t')) w)
  ∧ (∀ (r : Reader) name (t : VT) (w : W),
     bind r None name (Some t) w = ev (Function r) name (Some t) w)
  ∧ (∀ (r : Reader) (a : option Applier) name (w : W),
     bind r a name None w = (v ← r name; mret (value v)) w)
  ∧ (∀ (env : BasicReader) (fs : list (V → result V)) name (count : nat),
     (bind (objectReader env) (Some counting_applier) name
           (Some (pipe (stage <$> fs))) count).2 = S count).
Proof.
  repeat apply conj; try reflexivity.
  - intros r [a |] name w; reflexivity.
  - intros env fs name count. cbn. unfold mbind, M_bind; cbn.
    pose proof (pipe_stages_world fs (mkV (property env name) name false) (S count)) as Hworld.
    destruct (pipe (stage <$> fs) _ (S count)) as [[v' | e] w']; cbn in *; exact Hworld.
Qed.

(** C10: called with a name and no transformer, the bound evaluator
    returns what the reader returns for the name and leaves the world as
    the reader left it, whatever applier was bound: the applier is not
    invoked, and a counting applier counts nothing. *)
Theorem bind_raw_skips_applier {W} :
  (∀ (r : Reader) (a : Applier) name (w : W),
     bind r (Some a) name None w =
     match r name w with
     | (Return v, w') => (Return (value v), w')
     | (Throw e, w') => (Throw e, w')
     end)
  ∧ (∀ (env : BasicReader) name (count : nat),
     bind (objectReader env) (Some counting_applier) name None count =
     (Return (property env name), count)).
Proof.
  split.
  - intros r a name w. cbn. unfold mbind, M_bind.
    destruct (r name w) as [[v | e] w']; reflexivity.
  - reflexivity.
Qed.

(** * Further properties of the code *)

(** ** Booleans *)

Lemma lower_char_idempotent (c : ascii) : lower_char (lower_char c) = lower_char c.
Proof. destruct c as [[] [] [] [] [] [] [] []]; reflexivity. Qed.

Lemma toLowerCase_idempotent (s : string) :
  toLowerCase (toLowerCase s) = toLowerCase s.
Proof.
  induction s as [| c s IH]; [reflexivity |].
  cbn [toLowerCase]. by rewrite lower_char_idempotent, IH.
Qed.

(** X1: on a defined string [asBool] never uses the default and reads
    the string through its lower-case form only: it returns true when
    that form is one of yes, true, on, 1, false when it is one of no,
    false, off, 0, and throws "<name> is not a valid boolean value."
    otherwise, the empty string included; the outcome on a string is the
    outcome on its lower-case form. *)
Theorem asBool_words (n : string) (sec : bool) (s : string) (d : option bool) :
  (toLowerCase s ∈ truthy →
     asBool (mkV (VString s) n sec) d = Return (mkV (VBoolean true) n sec))
  ∧ (toLowerCase s ∈ falsy →
     asBool (mkV (VString s) n sec) d = Return (mkV (VBoolean false) n sec))
  ∧ (toLowerCase s ∉ (truthy ++ falsy)%list →
     asBool (mkV (VString s) n sec) d =
     Throw (Error (n ++ " is not a valid boolean value.")))
  ∧ (∀ d', asBool (mkV (VString s) n sec) d =
           asBool (mkV (VString (toLowerCase s)) n sec) d')
  ∧ asBool (mkV (VString "") n sec) d =
    Throw (Error (n ++ " is not a valid boolean value.")).
Proof.
  assert (∀ t, asBool (mkV (VString t) n sec) d =
    if bool_decide (toLowerCase t ∈ truthy) then Return (mkV (VBoolean true) n sec)
    else if bool_decide (toLowerCase t ∈ falsy) then Return (mkV (VBoolean false) n sec)
    else Throw (Error (n ++ " is not a valid boolean value."))) as Hcases.
  { intros t. unfold asBool, truthy, falsy; cbn.
    destruct (bool_decide (toLowerCase t ∈ _)); cbn; [reflexivity |].
    destruct (bool_decide (toLowerCase t ∈ _)); reflexivity. }
  repeat apply conj.
  - intros Hin. rewrite Hcases, bool_decide_eq_true_2; done.
  - intros Hin. rewrite Hcases.
    rewrite bool_decide_eq_false_2, bool_decide_eq_true_2; [done.. |].
    intros Hyes. unfold truthy, falsy in *.
    set (w := toLowerCase s) in *. clearbody w.
    repeat (apply elem_of_cons in Hin as [-> | Hin];
            [by repeat (apply elem_of_cons in Hyes as [[=] | Hyes]);
                apply elem_of_nil in Hyes |]).
    by apply elem_of_nil in Hin.
  - intros Hout. rewrite Hcases.
    rewrite !bool_decide_eq_false_2; [done | |];
      intros Hin; apply Hout, elem_of_app; auto.
  - intros d'. unfold asBool; cbn. rewrite toLowerCase_idempotent. reflexivity.
  - reflexivity.
Qed.

Lemma asBool_words_witness :
  asBool (mkV (VString "TRUE") "DEBUG" false) (Some false) =
  Return (mkV (VBoolean true) "DEBUG" false).
Proof.
  apply (asBool_words "DEBUG" false "TRUE" (Some false)).
  unfold truthy. cbn. apply elem_of_cons. right. apply elem_of_cons. left.
  reflexivity.
Defined.

(** ** More on integers *)

(** X2: on a value that is not [undefined], what [asInt] returns is a
    number and never NaN (on [undefined] it returns the default, NaN
    included if that is the default). *)
Theorem asInt_defined_not_NaN (v v' : V) (d : option number) :
  value v ≠ VUndefined →
  asInt v d = Return v' →
  ∃ n, value v' = VNumber n ∧ Number_isNaN n = false.
Proof.
  intros Hdefined. unfold asInt.
  destruct (value v) eqn:Hx; [done | ..];
    (destruct (Number_isNaN _) eqn:Hnan; [discriminate |]);
    intros [= <-]; eauto.
Qed.

Lemma asInt_defined_not_NaN_witness :
  ∃ n, VNumber (of_Z 42) = VNumber n ∧ Number_isNaN n = false.
Proof.
  apply (asInt_defined_not_NaN (mkV (VString "42") "X" false)
           (mkV (VNumber (of_Z 42)) "X" false) (Some NaN)).
  - discriminate.
  - reflexivity.
Defined.

Lemma trim_start_blank (s : string) : every is_space s = true → trim_start s = "".
Proof.
  induction s as [| c s IH]; [reflexivity |]. cbn.
  intros [Hc Hs]%andb_true_iff. rewrite Hc. auto.
Qed.

(** X3: a string of white space only, the empty string included, is not
    a missing value for [asInt] and is no error either: it returns 0,
    whatever the default. *)
Theorem asInt_blank (n : string) (sec : bool) (s : string) (d : option number) :
  every is_space s = true →
  asInt (mkV (VString s) n sec) d = Return (mkV (VNumber (of_Z 0)) n sec).
Proof.
  intros Hs. unfold asInt; cbn. unfold StringToNumber.
  rewrite (trim_start_blank s Hs). reflexivity.
Qed.

Lemma asInt_blank_witness :
  asInt (mkV (VString "   ") "PORT" false) (Some (of_Z 8080)) =
  Return (mkV (VNumber (of_Z 0)) "PORT" false).
Proof. apply asInt_blank. reflexivity. Defined.

Lemma digit_not_space (c : ascii) : is_digit c = true → is_space c = false.
Proof. destruct c as [[] [] [] [] [] [] [] []]; (discriminate || reflexivity). Qed.

Lemma trim_end_digits (s : string) : every is_digit s = true → trim_end s = s.
Proof.
  induction s as [| c s IH]; [reflexivity |]. cbn.
  intros [Hc Hs]%andb_true_iff. rewrite (IH Hs).
  destruct s; [| reflexivity]. by rewrite (digit_not_space c Hc).
Qed.

Lemma span_every (p : ascii → bool) (s : string) :
  every p s = true → span p s = (s, "").
Proof.
  induction s as [| c s IH]; [reflexivity |]. cbn.
  intros [Hc Hs]%andb_true_iff. by rewrite Hc, (IH Hs).
Qed.

Lemma digits_from_nonneg (s : string) (acc : Z) :
  every is_digit s = true → 0 ≤ acc → 0 ≤ digits_from 10 digit_val acc s.
Proof.
  revert acc. induction s as [| c s IH]; intros acc; [done |]. cbn.
  intros [Hc Hs]%andb_true_iff Hacc. apply IH; [done |].
  unfold is_digit, between in Hc. unfold digit_val. lia.
Qed.

Lemma Qred_integer (m : Z) : Qred (m # 1) = m # 1.
Proof.
  unfold Qred.
  pose proof (Z.ggcd_gcd m 1) as Hg.
  pose proof (Z.ggcd_correct_divisors m 1) as Hd.
  destruct (Z.ggcd m 1) as [g [a b]]. cbn in *.
  rewrite Z.gcd_1_r in Hg. subst g.
  assert (a = m) as -> by lia. assert (b = 1) as -> by lia. reflexivity.
Qed.

Lemma scale_0 (m : Z) : scale m 0 = m # 1.
Proof.
  unfold scale.
  replace (inject_Z m * (10 # 1) ^ 0)%Q with (m # 1); [apply Qred_integer |].
  unfold Qmult, inject_Z; cbn. by rewrite Z.mul_1_r.
Qed.

(** *** Rounding to binary64 *)

Lemma binary64_not_NaN (neg : bool) (q : Q) : Number_isNaN (binary64 neg q) = false.
Proof.
  unfold binary64. destruct (Qzero q); [reflexivity |].
  cbv zeta. destruct (Qle_bool _ _); reflexivity.
Qed.

Lemma round_half_even_1 (a : Z) : round_half_even a 1 = a.
Proof.
  unfold round_half_even. rewrite Z.mod_1_r, Z.div_1_r. reflexivity.
Qed.

Lemma floor_log2_integer (m : Z) : 0 < m → floor_log2 (m # 1) = Z.log2 m.
Proof.
  intros Hm. unfold floor_log2. cbn [Qnum Qden].
  change (Z.log2 1) with 0. rewrite Z.sub_0_r.
  pose proof (Z.log2_nonneg m) as Hnonneg.
  pose proof (Z.log2_spec m Hm) as [Hlow _].
  destruct (Z.leb_spec 0 (Z.log2 m)); [| lia].
  destruct (Z.leb_spec (2 ^ Z.log2 m * 1) m); [reflexivity | lia].
Qed.

(** An integer below [2^53] is a binary64 value: rounding keeps it. *)
Lemma binary64_exact (m : Z) :
  0 ≤ m < 2 ^ 53 → binary64 false (m # 1) = Num false (m # 1).
Proof.
  intros [Hlow Hhigh]. unfold binary64, Qzero. cbn [Qnum Qden].
  destruct (Z.eqb_spec m 0) as [-> | Hne]; [reflexivity |].
  rewrite floor_log2_integer by lia.
  assert (Z.log2 m < 53) as Hlog by (apply Z.log2_lt_pow2; lia).
  pose proof (Z.log2_nonneg m) as Hnonneg.
  rewrite Z.max_l by lia.
  set (k := Z.log2 m - 52).
  assert (Qle_bool (2 ^ 1024 # 1) (m # 1) = false) as Hfinite.
  { unfold Qle_bool. cbn [Qnum Qden]. apply Z.leb_gt.
    assert (2 ^ 53 < 2 ^ 1024) by (apply Z.pow_lt_mono_r; lia). lia. }
  destruct (Z.leb_spec 0 k) as [Hk | Hk].
  - assert (k = 0) as -> by lia.
    change (2 ^ 0) with 1. rewrite !Z.mul_1_r, round_half_even_1.
    by rewrite Hfinite.
  - assert (0 < 2 ^ (- k)) as Hpow by (apply Z.pow_pos_nonneg; lia).
    replace (Qred (round_half_even (m * 2 ^ (- k)) 1 # Z.to_pos (2 ^ (- k))))
      with (m # 1); [by rewrite Hfinite |].
    rewrite round_half_even_1, <- (Qred_integer m). apply Qred_complete.
    unfold Qeq. cbn [Qnum Qden]. rewrite Z2Pos.id by lia. lia.
Qed.

Example Number_rounding_examples :
  StringToNumber "9007199254740993" = Num false (9007199254740992 # 1)
  ∧ StringToNumber "0.1" = Num false (3602879701896397 # 36028797018963968)
  ∧ StringToNumber "1e400" = Inf false
  ∧ StringToNumber "-1e-400" = Num true 0
  ∧ StringToNumber "1.7976931348623157e308" = Num false (2 ^ 1024 - 2 ^ 971 # 1)
  ∧ StringToNumber "1.7976931348623159e308" = Inf false.
Proof. repeat split; vm_compute; reflexivity. Qed.

(** A digit string is a decimal literal with neither sign nor radix. *)
Lemma StringToNumber_digits (s : string) :
  every is_digit s = true → s ≠ "" →
  StringToNumber s = binary64 false (decimal s # 1).
Proof.
  intros Hs Hne.
  assert (StringToNumber s =
          match unsigned_decimal s with Some f => f false | None => NaN end) as ->.
  { unfold StringToNumber.
    destruct s as [| c s]; [done |].
    pose proof Hs as [Hc Hs']%andb_true_iff.
    cbn [trim_start]. rewrite (digit_not_space c Hc), (trim_end_digits _ Hs).
    destruct c as [[] [] [] [] [] [] [] []]; try discriminate Hc; try reflexivity.
    destruct s as [| c' s]; [reflexivity |].
    apply andb_true_iff in Hs' as [Hc' _].
    destruct c' as [[] [] [] [] [] [] [] []]; try discriminate Hc'; reflexivity. }
  unfold unsigned_decimal.
  assert (String.eqb s "Infinity" = false) as ->.
  { apply String.eqb_neq. intros ->. discriminate Hs. }
  rewrite (span_every _ _ Hs).
  destruct s as [| c s]; [done |]. cbn [is_empty exponent_part].
  by rewrite scale_0.
Qed.

Lemma decimal_nonneg (s : string) : every is_digit s = true → 0 ≤ decimal s.
Proof. intros Hs. apply digits_from_nonneg; [done | lia]. Qed.

(** X4: on a string of decimal digits that is not empty [asInt] returns
    the binary64 value nearest to the number the digits denote, whatever
    the default; when that number is below 2^53 it is the number itself. *)
Theorem asInt_digits (n : string) (sec : bool) (s : string) (d : option number) :
  every is_digit s = true → s ≠ "" →
  asInt (mkV (VString s) n sec) d =
    Return (mkV (VNumber (binary64 false (decimal s # 1))) n sec)
  ∧ (decimal s < 2 ^ 53 →
     asInt (mkV (VString s) n sec) d =
     Return (mkV (VNumber (Num false (decimal s # 1))) n sec)).
Proof.
  intros Hs Hne.
  assert (asInt (mkV (VString s) n sec) d =
          Return (mkV (VNumber (binary64 false (decimal s # 1))) n sec)) as Hrounded.
  { unfold asInt; cbn [value name is_secret Number].
    rewrite (StringToNumber_digits s Hs Hne), binary64_not_NaN. reflexivity. }
  split; [exact Hrounded |].
  intros Hsmall. rewrite Hrounded, binary64_exact; [reflexivity |].
  split; [by apply decimal_nonneg | done].
Qed.

Lemma asInt_digits_witness :
  asInt (mkV (VString "0080") "PORT" true) None =
  Return (mkV (VNumber (Num false (80 # 1))) "PORT" true).
Proof.
  destruct (asInt_digits "PORT" true "0080" None) as [_ Hexact];
    [reflexivity | discriminate |].
  apply Hexact. reflexivity.
Defined.

(** ** More on durations *)

Lemma asDuration_defined_throws (v : V) (d : option number) :
  value v ≠ VUndefined → ∃ e, asDuration v d = Throw e.
Proof.
  intros Hdefined. unfold asDuration.
  destruct (value v) as [| s | | | |]; [done | | cbn; eauto ..].
  cbn. destruct (exec s) as [[whole tok] |]; cbn; eauto.
Qed.

(** X5: [asDuration] returns on [undefined] only, and then the default (0
    when there is none) with the name and the secrecy of its input: on
    every defined value, whatever its type, it throws. *)
Theorem asDuration_returns_iff (v v' : V) (d : option number) :
  asDuration v d = Return v' ↔
  value v = VUndefined
  ∧ v' = mkV (VNumber (default (of_Z 0) d)) (name v) (is_secret v).
Proof.
  split.
  - intros Hret. destruct (value v) eqn:Hx.
    + split; [reflexivity |]. unfold asDuration in Hret. rewrite Hx in Hret.
      by injection Hret as <-.
    + destruct (asDuration_defined_throws v d) as [e He]; [congruence |]. congruence.
    + destruct (asDuration_defined_throws v d) as [e He]; [congruence |]. congruence.
    + destruct (asDuration_defined_throws v d) as [e He]; [congruence |]. congruence.
    + destruct (asDuration_defined_throws v d) as [e He]; [congruence |]. congruence.
    + destruct (asDuration_defined_throws v d) as [e He]; [congruence |]. congruence.
  - intros [Hx ->]. unfold asDuration. rewrite Hx. reflexivity.
Qed.

(** X6: the pipeline [pipe(must, asDuration)] of the documentation never
    returns: on every envelope, with every default, it throws and leaves
    the world alone; on [undefined] and on the empty string the error is
    that of [must]. *)
Theorem pipe_must_asDuration_throws {W} (v : V) (d : option number) (w : W) :
  (∃ e, pipe [stage must; stage (λ v, asDuration v d)] v w = (Throw e, w))
  ∧ (value v = VUndefined ∨ value v = VString "" →
     pipe [stage must; stage (λ v, asDuration v d)] v w =
     (Throw (Error (name v ++ " is not defined")), w)).
Proof.
  split.
  - unfold pipe; cbn. unfold mbind, M_bind, stage, must.
    destruct (ToBoolean (value v)) eqn:Htruthy; cbn; [| eauto].
    destruct (asDuration_defined_throws
                (mkV (value v) (name v) (is_secret v)) d) as [e ->]; [| eauto].
    cbn. intros Hx. rewrite Hx in Htruthy. discriminate.
  - unfold pipe; cbn. unfold mbind, M_bind, stage, must.
    intros [-> | ->]; reflexivity.
Qed.

Lemma pipe_must_asDuration_throws_witness :
  pipe [stage must; stage (λ v, asDuration v None)]
       (mkV (VString "") "TIMEOUT" false) () =
  (Throw (Error "TIMEOUT is not defined"), ()).
Proof.
  apply (@pipe_must_asDuration_throws unit (mkV (VString "") "TIMEOUT" false) None ()).
  right. reflexivity.
Defined.

(** ** More on dates *)

(** X7: [asISODate] returns on strings only; the value it returns is a
    valid date within the range of time values, with the name and the
    secrecy of the input, and [toISOString] of that date is the string
    it was given. *)
Theorem asISODate_returns `{DateParser} (v v' : V) :
  asISODate v = Return v' →
  ∃ s t, value v = VString s
         ∧ v' = mkV (VDate (Some t)) (name v) (is_secret v)
         ∧ Z.abs t ≤ 8640000000000000
         ∧ toISOString (Some t) = Return s.
Proof.
  destruct v as [x n sec]. unfold asISODate; cbn [value name is_secret].
  destruct x as [| s | | | |]; cbn [String_strict_eq];
    try (destruct (new_Date _); cbn; discriminate).
  cbn [new_Date]. destruct (Date_parse s ≫= TimeClip) as [t |] eqn:Ht; [| discriminate].
  cbn. destruct (String.eqb_spec (iso_string t) s) as [Heq | Hne]; [| discriminate].
  intros [= <-]. exists s, t. repeat split; [| by rewrite Heq].
  destruct (Date_parse s) as [t0 |]; [| discriminate]. cbn in Ht.
  unfold TimeClip in Ht.
  destruct (Z.leb_spec (Z.abs t0) 8640000000000000); [| discriminate].
  by injection Ht as <-.
Qed.

Lemma asISODate_returns_witness :
  ∃ s t, VString "2024-02-29T12:34:56.789Z" = VString s
         ∧ mkV (VDate (Some 1709210096789)) "D" true = mkV (VDate (Some t)) "D" true
         ∧ Z.abs t ≤ 8640000000000000
         ∧ toISOString (Some t) = Return s.
Proof.
  apply (@asISODate_returns strict_host
           (mkV (VString "2024-02-29T12:34:56.789Z") "D" true)
           (mkV (VDate (Some 1709210096789)) "D" true)).
  reflexivity.
Defined.

(** *** The form of the strings [asISODate] accepts *)

Lemma shape_append (a b : string) :
  shape (String.append a b) = String.append (shape a) (shape b).
Proof.
  induction a as [| c a IH]; [reflexivity |].
  simpl. rewrite IH. reflexivity.
Qed.

Lemma digit_char_digit (n : Z) : is_digit (digit_char n) = true.
Proof.
  unfold digit_char.
  assert (0 ≤ n mod 10 < 10) as Hk by (apply Z.mod_pos_bound; lia).
  set (k := n mod 10) in *. clearbody k.
  assert (k = 0 ∨ k = 1 ∨ k = 2 ∨ k = 3 ∨ k = 4 ∨ k = 5 ∨ k = 6 ∨ k = 7
          ∨ k = 8 ∨ k = 9) as Hcases by lia.
  repeat (destruct Hcases as [-> | Hcases]; [reflexivity |]). by subst.
Qed.

Lemma shape_padded (width : nat) (n : Z) : shape (padded width n) = padded width 0.
Proof.
  revert n. induction width as [| width IH]; intros n; [reflexivity |].
  cbn [padded]. rewrite shape_append, IH. cbn [shape].
  by rewrite digit_char_digit.
Qed.

Lemma shape_year_string (y : Z) :
  shape (year_string y) ∈ ["0000"; "+000000"; "-000000"].
Proof.
  unfold year_string. destruct (_ && _).
  - rewrite shape_padded. set_solver.
  - rewrite shape_append, shape_padded. destruct (y <? 0); set_solver.
Qed.

Lemma shape_iso_string (t : Z) :
  shape (iso_string t) ∈
    ["0000-00-00T00:00:00.000Z"; "+000000-00-00T00:00:00.000Z";
     "-000000-00-00T00:00:00.000Z"].
Proof.
  unfold iso_string. destruct (civil_from_days _) as [[y m] d].
  cbn [String.concat]. rewrite !shape_append, !shape_padded.
  pose proof (shape_year_string y) as Hy.
  repeat (apply elem_of_cons in Hy as [-> | Hy]; [set_solver |]).
  by apply elem_of_nil in Hy.
Qed.

(** X8: whatever the host parses, a string [asISODate] accepts has the
    form dddd-dd-ddTdd:dd:dd.dddZ of [toISOString], with four digits for
    the year or a sign and six; a date alone, a local time or an offset
    other than Z is never accepted. *)
Theorem asISODate_accepts_iso_form `{DateParser}
    (n : string) (sec : bool) (s : string) (v' : V) :
  asISODate (mkV (VString s) n sec) = Return v' →
  shape s ∈
    ["0000-00-00T00:00:00.000Z"; "+000000-00-00T00:00:00.000Z";
     "-000000-00-00T00:00:00.000Z"].
Proof.
  rewrite asISODate_string.
  destruct (Date_parse s ≫= TimeClip) as [t |]; [| discriminate].
  destruct (String.eqb_spec (iso_string t) s) as [<- | Hne]; [| discriminate].
  intros _. apply shape_iso_string.
Qed.

Lemma asISODate_accepts_iso_form_witness :
  shape "2024-02-29T12:34:56.789Z" ∈
    ["0000-00-00T00:00:00.000Z"; "+000000-00-00T00:00:00.000Z";
     "-000000-00-00T00:00:00.000Z"].
Proof.
  apply (@asISODate_accepts_iso_form strict_host "D" true
           "2024-02-29T12:34:56.789Z" (mkV (VDate (Some 1709210096789)) "D" true)).
  reflexivity.
Defined.

(** ** Secrecy along a pipeline *)

(** A built-in transformer on a secret envelope. *)
Lemma builtin_on_secret `{DateParser} (f : V → result V) (v : V) :
  builtin f →
  f (secret v) =
  match f v with
  | Return v' => Return (secret v')
  | Throw e => Throw e
  end.
Proof.
  destruct v as [x n sec]. intros [| | d | d | d |]; unfold secret; cbn.
  - unfold must; cbn. destruct (ToBoolean x); reflexivity.
  - unfold asISODate; cbn. destruct (toISOString _) as [iso | e]; cbn; [| reflexivity].
    destruct (String_strict_eq iso x); reflexivity.
  - unfold asDuration; cbn. destruct x as [| s | | | |]; cbn; try reflexivity.
    destruct (exec s) as [[whole tok] |]; reflexivity.
  - unfold asInt; cbn. destruct x; try reflexivity;
      destruct (Number_isNaN _); reflexivity.
  - unfold asBool; cbn. destruct x as [| s | | | |]; cbn; try reflexivity.
    destruct (bool_decide _); cbn; [reflexivity |].
    destruct (bool_decide _); reflexivity.
  - reflexivity.
Qed.

(** A pipeline of built-in transformers on a secret envelope. *)
Lemma pipe_on_secret `{DateParser} {W} (fs : list (V → result V)) (v : V) (w : W) :
  Forall builtin fs →
  pipe (stage <$> fs) (secret v) w =
  match pipe (stage <$> fs) v w with
  | (Return v', w') => (Return (secret v'), w')
  | (Throw e, w') => (Throw e, w')
  end.
Proof.
  intros Hfs. revert v. induction Hfs as [| f fs Hf Hfs IH]; intros v; [reflexivity |].
  unfold pipe in *. cbn. unfold mbind, M_bind, stage at 1 3.
  rewrite (builtin_on_secret f v Hf).
  destruct (f v) as [v1 | e]; [apply IH | reflexivity].
Qed.

(** X9: tagging an envelope as secret before a built-in transformer, or
    before a whole pipeline of them, is the same as tagging what comes
    out: the same value is returned, or the same error thrown; no error
    message depends on the flag. *)
Theorem secret_commutes `{DateParser} {W} (f : V → result V)
    (fs : list (V → result V)) (v : V) (w : W) :
  (builtin f →
   f (secret v) =
   match f v with
   | Return v' => Return (secret v')
   | Throw e => Throw e
   end)
  ∧ (Forall builtin fs →
     pipe (stage <$> fs) (secret v) w =
     match pipe (stage <$> fs) v w with
     | (Return v', w') => (Return (secret v'), w')
     | (Throw e, w') => (Throw e, w')
     end).
Proof.
  split; [apply builtin_on_secret | apply pipe_on_secret].
Qed.

Lemma secret_commutes_witness :
  asInt (secret (mkV (VString "42") "X" false)) None =
  Return (secret (mkV (VNumber (of_Z 42)) "X" false)).
Proof.
  destruct (@secret_commutes strict_host unit (λ v, asInt v None) []
              (mkV (VString "42") "X" false) ()) as [Hone _].
  apply Hone. apply builtin_asInt.
Defined.

(** A built-in transformer keeps the name and never clears the flag. *)
Lemma builtin_tags `{DateParser} (f : V → result V) (v v' : V) :
  builtin f → f v = Return v' →
  name v' = name v ∧ (is_secret v = true → is_secret v' = true).
Proof.
  intros [| | d | d | d |].
  - unfold must. destruct (negb _); [discriminate |]. by intros [= <-].
  - unfold asISODate. destruct (toISOString _); cbn; [| discriminate].
    destruct (negb _); [discriminate |]. by intros [= <-].
  - unfold asDuration. destruct (value v) as [| s | | | |]; cbn;
      try discriminate; [by intros [= <-] |].
    destruct (exec s) as [[whole tok] |]; discriminate.
  - unfold asInt. destruct (value v); try (by intros [= <-]);
      (destruct (Number_isNaN _); [discriminate | by intros [= <-]]).
  - unfold asBool. destruct (value v) as [| s | | | |]; cbn;
      try discriminate; [by intros [= <-] |].
    destruct (bool_decide _); cbn; [by intros [= <-] |].
    destruct (bool_decide _); [by intros [= <-] | discriminate].
  - by intros [= <-].
Qed.

Lemma pipe_builtins_tags `{DateParser} {W} (fs : list (V → result V))
    (v v' : V) (w w' : W) :
  Forall builtin fs →
  pipe (stage <$> fs) v w = (Return v', w') →
  name v' = name v ∧ (is_secret v = true → is_secret v' = true).
Proof.
  intros Hfs. revert v. induction Hfs as [| f fs Hf Hfs IH]; intros v.
  - intros [= <- _]. done.
  - unfold pipe in *. cbn. unfold mbind, M_bind, stage at 1.
    destruct (f v) as [v1 | e] eqn:Hv1; [| discriminate].
    intros Hrest. destruct (IH v1 Hrest) as [Hname Hsecret].
    destruct (builtin_tags f v v1 Hf Hv1) as [Hname1 Hsecret1].
    split; [congruence | auto].
Qed.

(** X10: a pipeline of built-in transformers that returns, returns the
    name it was given and leaves the world alone; it never clears the
    secrecy flag, and when [secret] is one of its stages the envelope it
    returns is secret, whatever stages come after. *)
Theorem pipe_keeps_secret `{DateParser} {W} (fs : list (V → result V))
    (v v' : V) (w w' : W) :
  Forall builtin fs →
  pipe (stage <$> fs) v w = (Return v', w') →
  name v' = name v
  ∧ w' = w
  ∧ (is_secret v = true ∨ (λ v, Return (secret v)) ∈ fs → is_secret v' = true).
Proof.
  intros Hfs Hret. split; [| split].
  - by eapply pipe_builtins_tags.
  - pose proof (pipe_stages_world fs v w) as Hw. by rewrite Hret in Hw.
  - intros [Hsec | Hin]; [by eapply pipe_builtins_tags |].
    apply list_elem_of_split in Hin as (fs1 & fs2 & ->).
    apply Forall_app in Hfs as [_ Hfs2]. apply Forall_cons in Hfs2 as [_ Hfs2].
    rewrite fmap_app, pipe_app in Hret. unfold mbind, M_bind in Hret.
    destruct (pipe (stage <$> fs1) v w) as [[v1 | e] w1]; [| discriminate].
    rewrite fmap_cons in Hret. unfold pipe in Hret. cbn in Hret.
    unfold mbind, M_bind, stage at 1 in Hret.
    by eapply (pipe_builtins_tags fs2 (secret v1) v' w1 w').
Qed.

Lemma pipe_keeps_secret_witness :
  "KEY" = "KEY" ∧ () = ()
  ∧ (false = true ∨ (λ v, Return (secret v)) ∈
       [must; (λ v, Return (secret v)); (λ v, asInt v None)] → true = true).
Proof.
  apply (@pipe_keeps_secret strict_host unit
           [must; (λ v, Return (secret v)); (λ v, asInt v None)]
           (mkV (VString "7") "KEY" false)
           (mkV (VNumber (of_Z 7)) "KEY" true) () ()).
  - repeat constructor.
  - reflexivity.
Defined.

(** ** Pipelines of pipelines *)

Lemma pipe_cons {W} (t : VT) (ts : list VT) (v : V) (w : W) :
  pipe (t :: ts) v w = (t v ≫= pipe ts) w.
Proof. reflexivity. Qed.

(** X11: a pipeline used as a stage of another is the stages of both in
    one pipeline: [pipe(pipe(a, b), c)] is [pipe(a, b, c)], for outcome
    and world alike; so is any pipeline of pipelines, and the pipeline of
    one transformer is that transformer. *)
Theorem pipe_flattens {W} :
  (∀ (ts1 ts2 : list VT) v (w : W),
     pipe (pipe ts1 :: ts2) v w = pipe (ts1 ++ ts2) v w)
  ∧ (∀ (tss : list (list VT)) v (w : W),
     pipe (pipe <$> tss) v w = pipe (concat tss) v w)
  ∧ (∀ (t : VT) v (w : W), pipe [t] v w = t v w).
Proof.
  assert (∀ (ts1 ts2 : list VT) v (w : W),
            pipe (pipe ts1 :: ts2) v w = pipe (ts1 ++ ts2) v w) as Hnest.
  { intros ts1 ts2 v w. by rewrite pipe_cons, pipe_app. }
  repeat apply conj; [done | |].
  - intros tss. induction tss as [| ts tss IH]; intros v w; [reflexivity |].
    rewrite fmap_cons, pipe_cons. cbn [concat]. rewrite pipe_app.
    unfold mbind, M_bind. destruct (pipe ts v w) as [[v1 | e] w1]; [apply IH | done].
  - intros t v w. rewrite pipe_cons. unfold mbind, M_bind.
    destruct (t v w) as [[v1 | e] w1]; reflexivity.
Qed.

(** ** Required integers *)

(** [must] at the head of a pipeline. *)
Lemma pipe_must_first {W} (ts : list VT) (v : V) (w : W) :
  pipe (stage must :: ts) v w =
  if ToBoolean (value v)
  then pipe ts (mkV (value v) (name v) (is_secret v)) w
  else (Throw (Error (name v ++ " is not defined")), w).
Proof.
  unfold pipe; cbn. unfold mbind, M_bind, stage, must.
  destruct (ToBoolean (value v)); reflexivity.
Qed.

(** X12: in [pipe(must, asInt)] the default of [asInt] is never used:
    the pipeline throws the error of [must] on [undefined] and on the
    empty string (which [asInt] alone reads as 0) and is [asInt] without
    a default on every other value. *)
Theorem pipe_must_asInt {W} (v : V) (d : option number) (w : W) :
  pipe [stage must; stage (λ v, asInt v d)] v w =
  (if ToBoolean (value v) then asInt v None
   else Throw (Error (name v ++ " is not defined")), w).
Proof.
  rewrite pipe_must_first. destruct v as [x n sec]; cbn [value name is_secret].
  destruct (ToBoolean x) eqn:Htruthy; [| reflexivity].
  unfold pipe; cbn. unfold mbind, M_bind, stage, asInt; cbn.
  destruct x; try discriminate Htruthy;
    destruct (Number_isNaN _); reflexivity.
Qed.

(** ** Readers *)

(** What a plain object inherits is an object, hence truthy, and not a
    number. *)
Lemma inherited_object (key : string) (x : any) :
  inherited key = Some x →
  ∃ p, x = VObject p ∧ StringToNumber p = NaN.
Proof.
  unfold inherited. destruct (String.eqb key "__proto__").
  - intros [= <-]. eexists. split; [reflexivity |]. vm_compute. reflexivity.
  - destruct (bool_decide (key ∈ Object_prototype_functions)) eqn:Hin; [| discriminate].
    intros [= <-]. eexists. split; [reflexivity |].
    apply bool_decide_eq_true in Hin. unfold Object_prototype_functions in Hin.
    repeat (apply elem_of_cons in Hin as [-> | Hin]; [vm_compute; reflexivity |]).
    by apply elem_of_nil in Hin.
Qed.

(** X13: reading through [processEnvReader(env)] and reading the plain
    object [env] itself are the same lookup, with or without a
    transformer, through [ev] and through a bound evaluator without
    applier; a name the object neither owns nor inherits reads as
    [undefined], and a name it inherits from [Object.prototype]
    (constructor, toString, ...) reads as the inherited object. *)
Theorem processEnvReader_ev {W} (env : BasicReader) (name : string)
    (t : option VT) (w : W) :
  ev (Function (processEnvReader env)) name t w = ev (Object env) name t w
  ∧ bind (processEnvReader env) None name t w = ev (Object env) name t w
  ∧ (env !! name = None → inherited name = None →
     processEnvReader env name w = (Return (mkV VUndefined name false), w))
  ∧ (∀ x, env !! name = None → inherited name = Some x →
     processEnvReader env name w = (Return (mkV x name false), w)
     ∧ ∃ p, x = VObject p).
Proof.
  repeat apply conj.
  - reflexivity.
  - destruct t; reflexivity.
  - intros Hmissing Hplain. unfold processEnvReader, property.
    rewrite Hmissing, Hplain. reflexivity.
  - intros x Hmissing Hproto. unfold processEnvReader, property.
    rewrite Hmissing, Hproto. split; [reflexivity |].
    destruct (inherited_object name x Hproto) as (p & -> & _). eauto.
Qed.

Lemma processEnvReader_ev_witness :
  processEnvReader (W := unit) {[ "HOME" := Some "/root" ]} "PORT" () =
    (Return (mkV VUndefined "PORT" false), ())
  ∧ processEnvReader (W := unit) {[ "HOME" := Some "/root" ]} "hasOwnProperty" () =
    (Return (mkV (VObject "function hasOwnProperty() { [native code] }")
                 "hasOwnProperty" false), ()).
Proof.
  split.
  - destruct (@processEnvReader_ev unit {[ "HOME" := Some "/root" ]}
                "PORT" None ()) as (_ & _ & Hmissing & _).
    apply Hmissing; reflexivity.
  - destruct (@processEnvReader_ev unit {[ "HOME" := Some "/root" ]}
                "hasOwnProperty" None ()) as (_ & _ & _ & Hinherited).
    apply Hinherited; reflexivity.
Defined.

Lemma ev_object_transform {W} (env : BasicReader) (name : string) (t : VT) (w : W) :
  ev (Object env) name (Some t) w =
  match t (mkV (property env name) name false) w with
  | (Return v', w') => (Return (value v'), w')
  | (Throw e, w') => (Throw e, w')
  end.
Proof. reflexivity. Qed.

(** X14: the basic usage of the documentation, [ev(env, name,
    pipe(must, asInt))]: when the object holds under the name a string of
    decimal digits that denotes a number below 2^53, the result is that
    number; when it holds [undefined] or the empty string, or neither owns
    nor inherits the name, the call throws "<name> is not defined"; for a
    name it inherits from [Object.prototype] the call throws "<name> is
    not a number"; the world is left alone. *)
Theorem ev_required_integer {W} (env : BasicReader) (key : string) (w : W) :
  (∀ s, env !! key = Some (Some s) → every is_digit s = true → s ≠ "" →
     decimal s < 2 ^ 53 →
     ev (Object env) key (Some (pipe [stage must; stage (λ v, asInt v None)])) w =
     (Return (VNumber (Num false (decimal s # 1))), w))
  ∧ ((env !! key = None ∧ inherited key = None) ∨ env !! key = Some None
     ∨ env !! key = Some (Some "") →
     ev (Object env) key (Some (pipe [stage must; stage (λ v, asInt v None)])) w =
     (Throw (Error (key ++ " is not defined")), w))
  ∧ (∀ x, env !! key = None → inherited key = Some x →
     ev (Object env) key (Some (pipe [stage must; stage (λ v, asInt v None)])) w =
     (Throw (Error (key ++ " is not a number")), w)).
Proof.
  repeat apply conj.
  - intros s Hs Hdigits Hne Hsmall.
    rewrite ev_object_transform, pipe_must_first. unfold property. rewrite Hs.
    cbn [value name is_secret].
    destruct s as [| c s]; [done |]. cbn [ToBoolean is_empty negb].
    unfold pipe; cbn [fmap for_of]. unfold mbind, M_bind, stage, asInt.
    cbn [value name is_secret Number].
    rewrite (StringToNumber_digits (String c s)) by done.
    rewrite binary64_not_NaN, binary64_exact; [reflexivity |].
    split; [by apply decimal_nonneg | done].
  - intros Hmissing.
    rewrite ev_object_transform, pipe_must_first. unfold property.
    destruct Hmissing as [[-> ->] | [-> | ->]]; reflexivity.
  - intros x Hmissing Hproto.
    destruct (inherited_object key x Hproto) as (p & -> & Hnan).
    rewrite ev_object_transform, pipe_must_first. unfold property.
    rewrite Hmissing, Hproto.
    unfold pipe; cbn [fmap for_of]. unfold mbind, M_bind, stage, asInt.
    cbn [default from_option id value name is_secret Number ToBoolean].
    rewrite Hnan. reflexivity.
Qed.

Lemma ev_required_integer_witness :
  ev (W := unit) (Object {[ "PORT" := Some "8080" ]}) "PORT"
     (Some (pipe [stage must; stage (λ v, asInt v None)])) () =
    (Return (VNumber (Num false (8080 # 1))), ())
  ∧ ev (W := unit) (Object ∅) "constructor"
       (Some (pipe [stage must; stage (λ v, asInt v None)])) () =
    (Throw (Error "constructor is not a number"), ()).
Proof.
  split.
  - destruct (@ev_required_integer unit {[ "PORT" := Some "8080" ]} "PORT" ())
      as [Hdigits _].
    apply (Hdigits "8080"); [reflexivity | reflexivity | discriminate | reflexivity].
  - destruct (@ev_required_integer unit ∅ "constructor" ())
      as (_ & _ & Hinherited).
    apply (Hinherited (VObject "function Object() { [native code] }"));
      reflexivity.
Defined.

(** ** Logging appliers *)

(** What the transformer built by [createNestLoggerApplier] does on an
    envelope, by the outcome of the transformer it wraps. *)
Lemma logged_run `{Printer} {W} (logger : Logger W) (t : VT) (v : V) (w : W) :
  ∃ t', createNestLoggerApplier logger t w = (Return t', w)
    ∧ t' v w =
      match t v w with
      | (Return r, w1) =>
          match log logger (if is_secret r then name v ++ " = ********"
                            else name v ++ " = " ++ ToString (value r)) w1 with
          | (Return _, w2) => (Return r, w2)
          | (Throw e, w2) => (Throw e, w2)
          end
      | (Throw e, w1) =>
          match error logger (name v ++ ": " ++ exn_ToString e) w1 with
          | (Return _, w2) => (Throw e, w2)
          | (Throw e', w2) => (Throw e', w2)
          end
      end.
Proof.
  eexists. split; [reflexivity |]. cbn.
  unfold mbind, M_bind, try_catch, throw.
  destruct (t v w) as [[r | e] w1].
  - destruct (is_secret r);
      destruct (log logger _ w1) as [[[] | e] w2]; reflexivity.
  - destruct (error logger _ w1) as [[[] | e'] w2]; reflexivity.
Qed.

(** X15: when neither method of the logger throws, the transformer that
    [createNestLoggerApplier(logger)] builds returns what the wrapped
    transformer returns and throws what it throws; building it changes
    nothing and calls nothing. *)
Theorem createNestLoggerApplier_transparent `{Printer} {W}
    (logger : Logger W) (t : VT) (v : V) (w : W) :
  (∀ line w0, ∃ w1, log logger line w0 = (Return (), w1)) →
  (∀ line w0, ∃ w1, error logger line w0 = (Return (), w1)) →
  ∃ t', createNestLoggerApplier logger t w = (Return t', w)
        ∧ (t' v w).1 = (t v w).1.
Proof.
  intros Hlog Herror.
  destruct (logged_run logger t v w) as (t' & Hbuilt & Hrun).
  exists t'. split; [done |]. rewrite Hrun.
  destruct (t v w) as [[r | e] w1]; cbn.
  - destruct (Hlog (if is_secret r then name v ++ " = ********"
                    else name v ++ " = " ++ ToString (value r)) w1) as [w2 ->].
    reflexivity.
  - destruct (Herror (name v ++ ": " ++ exn_ToString e) w1) as [w2 ->].
    reflexivity.
Qed.

Lemma createNestLoggerApplier_transparent_witness :
  ∃ t', @createNestLoggerApplier plain_printer _ console (stage must)
          ([] : list console_line) = (Return t', [])
        ∧ (t' (mkV VUndefined "HOST" false) []).1 =
          (stage must (mkV VUndefined "HOST" false) ([] : list console_line)).1.
Proof.
  apply (@createNestLoggerApplier_transparent plain_printer _ console).
  - intros line w0. eexists. reflexivity.
  - intros line w0. eexists. reflexivity.
Defined.

Lemma console_run `{Printer} (t : VT) (w : list console_line) :
  ∃ t', consoleLoggerApplier t w = (Return t', w)
    ∧ ∀ v w0, t' v w0 =
        ((t v w0).1, (t v w0).2 ++ [console_report v (t v w0).1])%list.
Proof.
  eexists. split; [reflexivity |]. intros v w0. cbn.
  unfold mbind, M_bind, try_catch, throw.
  destruct (t v w0) as [[r | e] w1]; cbn; [destruct (is_secret r) |]; reflexivity.
Qed.

(** X16: the transformer built by [consoleLoggerApplier] has the outcome
    of the transformer it wraps and writes exactly one line after it: to
    the error stream "<name>: <error>" when it throws, to the output
    "<name> = <value>" when it returns, and "<name> = ********" when the
    envelope returned is secret, so that the line then holds nothing of
    the value. *)
Theorem consoleLoggerApplier_line `{Printer} (t : VT) (w : list console_line) :
  ∃ t', consoleLoggerApplier t w = (Return t', w)
    ∧ (∀ v w0, (t' v w0).1 = (t v w0).1)
    ∧ (∀ v w0, ∃ line, (t' v w0).2 = ((t v w0).2 ++ [line])%list
         ∧ (∀ e, (t v w0).1 = Throw e →
                 line = stderr (name v ++ ": " ++ exn_ToString e))
         ∧ (∀ r, (t v w0).1 = Return r → is_secret r = false →
                 line = stdout (name v ++ " = " ++ ToString (value r)))
         ∧ (∀ r, (t v w0).1 = Return r → is_secret r = true →
                 line = stdout (name v ++ " = ********"))).
Proof.
  destruct (console_run t w) as (t' & Hbuilt & Hrun).
  exists t'. split; [done |]. split.
  - intros v w0. by rewrite Hrun.
  - intros v w0. exists (console_report v (t v w0).1). rewrite Hrun.
    split; [reflexivity |].
    repeat split; intros r -> || intros e ->; cbn; try intros ->; reflexivity.
Qed.

Lemma consoleLoggerApplier_line_witness :
  ∃ t', @consoleLoggerApplier plain_printer (stage (λ v, Return (secret v))) [] =
        (Return t', [])
        ∧ (t' (mkV (VString "hunter2") "PASSWORD" false) []).2 =
          [stdout "PASSWORD = ********"].
Proof.
  destruct (@consoleLoggerApplier_line plain_printer
              (stage (λ v, Return (secret v))) [])
    as (t' & Hbuilt & _ & Hline).
  exists t'. split; [exact Hbuilt |].
  destruct (Hline (mkV (VString "hunter2") "PASSWORD" false) [])
    as (line & Hworld & _ & _ & Hsecret).
  rewrite Hworld, (Hsecret _ eq_refl eq_refl). reflexivity.
Defined.

Lemma ev_function_transform {W} (r : Reader) (key : string) (t : VT) (w : W) :
  ev (Function r) key (Some t) w =
  match r key w with
  | (Return v, w1) =>
      match t v w1 with
      | (Return v', w2) => (Return (value v'), w2)
      | (Throw e, w2) => (Throw e, w2)
      end
  | (Throw e, w1) => (Throw e, w1)
  end.
Proof.
  unfold ev. unfold mbind, M_bind, mret, M_ret.
  destruct (r key w) as [[v | e] w1]; reflexivity.
Qed.

(** X17: a lookup through an evaluator bound with [consoleLoggerApplier]
    has the outcome of the same lookup through an evaluator bound without
    applier; once the reader has returned, the console holds exactly one
    line more than it would, and none more when the reader throws. *)
Theorem bind_console_logs `{Printer} (r : Reader) (key : string) (t : VT)
    (w : list console_line) :
  (bind r (Some consoleLoggerApplier) key (Some t) w).1 =
  (bind r None key (Some t) w).1
  ∧ match r key w with
    | (Return v, w1) =>
        (bind r (Some consoleLoggerApplier) key (Some t) w).2 =
        ((bind r None key (Some t) w).2 ++ [console_report v (t v w1).1])%list
    | (Throw e, w1) =>
        (bind r (Some consoleLoggerApplier) key (Some t) w).2 = w1
    end.
Proof.
  destruct (console_run t w) as (t' & Hbuilt & Hrun).
  assert (bind r (Some consoleLoggerApplier) key (Some t) w =
          ev (Function r) key (Some t') w) as ->.
  { unfold bind. unfold mbind at 1, M_bind at 1. by rewrite Hbuilt. }
  change (bind r None key (Some t) w) with (ev (Function r) key (Some t) w).
  rewrite !ev_function_transform.
  destruct (r key w) as [[v | e] w1]; [| done].
  rewrite Hrun. destruct (t v w1) as [[v' | e] w2]; done.
Qed.

(** X18: reading a variable through [processEnvReader], [pipe(must,
    secret)] and [consoleLoggerApplier] returns the string the object
    holds and writes "<name> = ********" and nothing else; when the
    object neither owns nor inherits the name it throws the error of
    [must] and reports it on the error stream; for a name inherited from
    [Object.prototype] it returns the inherited object and writes the
    masked line; a lookup without a transformer writes nothing. *)
Theorem secret_lookup_is_masked `{Printer} (env : BasicReader) (key : string)
    (w : list console_line) :
  (∀ s, env !! key = Some (Some s) → s ≠ "" →
     bind (processEnvReader env) (Some consoleLoggerApplier) key
          (Some (pipe [stage must; stage (λ v, Return (secret v))])) w =
     (Return (VString s), (w ++ [stdout (key ++ " = ********")])%list))
  ∧ (env !! key = None → inherited key = None →
     bind (processEnvReader env) (Some consoleLoggerApplier) key
          (Some (pipe [stage must; stage (λ v, Return (secret v))])) w =
     (Throw (Error (key ++ " is not defined")),
      (w ++ [stderr (key ++ ": Error: " ++ key ++ " is not defined")])%list))
  ∧ bind (processEnvReader env) (Some consoleLoggerApplier) key None w =
    (Return (property env key), w)
  ∧ (∀ x, env !! key = None → inherited key = Some x →
     bind (processEnvReader env) (Some consoleLoggerApplier) key
          (Some (pipe [stage must; stage (λ v, Return (secret v))])) w =
     (Return x, (w ++ [stdout (key ++ " = ********")])%list)).
Proof.
  destruct (console_run (pipe [stage must; stage (λ v, Return (secret v))]) w)
    as (t' & Hbuilt & Hrun).
  assert (bind (processEnvReader env) (Some consoleLoggerApplier) key
            (Some (pipe [stage must; stage (λ v, Return (secret v))])) w =
          ev (Function (processEnvReader env)) key (Some t') w) as ->.
  { unfold bind. unfold mbind at 1, M_bind at 1. by rewrite Hbuilt. }
  assert (∀ x, property env key = x →
            ev (Function (processEnvReader env)) key (Some t') w =
            if ToBoolean x
            then (Return x, (w ++ [stdout (key ++ " = ********")])%list)
            else (Throw (Error (key ++ " is not defined")),
                  (w ++ [stderr (key ++ ": Error: " ++ key ++ " is not defined")])%list))
    as Hlookup.
  { intros x Hx. rewrite ev_function_transform. unfold processEnvReader.
    unfold mret, M_ret. rewrite Hrun, pipe_must_first.
    cbn [value name is_secret]. rewrite Hx.
    destruct (ToBoolean x); [reflexivity |]. cbn. destruct key; reflexivity. }
  repeat apply conj.
  - intros s Hs Hne. rewrite (Hlookup (VString s)).
    + destruct s; [done | reflexivity].
    + unfold property. by rewrite Hs.
  - intros Hmissing Hplain. rewrite (Hlookup VUndefined); [reflexivity |].
    unfold property. by rewrite Hmissing, Hplain.
  - reflexivity.
  - intros x Hmissing Hproto. rewrite (Hlookup x).
    + by destruct (inherited_object key x Hproto) as (p & -> & _).
    + unfold property. by rewrite Hmissing, Hproto.
Qed.

Lemma secret_lookup_is_masked_witness :
  bind (processEnvReader {[ "TOKEN" := Some "s3cr3t" ]})
       (Some (@consoleLoggerApplier plain_printer)) "TOKEN"
       (Some (pipe [stage must; stage (λ v, Return (secret v))])) [] =
    (Return (VString "s3cr3t"), [stdout "TOKEN = ********"])
  ∧ bind (processEnvReader ∅)
         (Some (@consoleLoggerApplier plain_printer)) "TOKEN"
         (Some (pipe [stage must; stage (λ v, Return (secret v))])) [] =
    (Throw (Error "TOKEN is not defined"),
     [stderr "TOKEN: Error: TOKEN is not defined"])
  ∧ bind (processEnvReader ∅)
         (Some (@consoleLoggerApplier plain_printer)) "toString"
         (Some (pipe [stage must; stage (λ v, Return (secret v))])) [] =
    (Return (VObject "function toString() { [native code] }"),
     [stdout "toString = ********"]).
Proof.
  split; [| split].
  - destruct (@secret_lookup_is_masked plain_printer
                {[ "TOKEN" := Some "s3cr3t" ]} "TOKEN" []) as [Hfound _].
    apply (Hfound "s3cr3t"); [reflexivity | discriminate].
  - destruct (@secret_lookup_is_masked plain_printer ∅ "TOKEN" [])
      as (_ & Hmissing & _).
    apply Hmissing; reflexivity.
  - destruct (@secret_lookup_is_masked plain_printer ∅ "toString" [])
      as (_ & _ & _ & Hinherited).
    apply Hinherited; reflexivity.
Defined.

(** ** The composed validator of the documentation *)

(** The pattern [/\.[a-z]{2,}$/] matches exactly the strings that end in
    a dot and two or more lower-case letters. *)
Lemma test_tld_iff (s : string) :
  test_tld s = true ↔
  ∃ pre tld, s = String.append pre (String "." tld)
             ∧ all_lower tld = true ∧ (2 ≤ String.length tld)%nat.
Proof.
  induction s as [| c s IH]; cbn [test_tld].
  - split; [discriminate |]. intros ([| ? ?] & tld & Hs & _); discriminate Hs.
  - rewrite orb_true_iff, IH, !andb_true_iff. split.
    + intros [[[Hc Hlower] Hlen] | (pre & tld & -> & Hlower & Hlen)].
      * apply Ascii.eqb_eq in Hc as ->. apply Nat.leb_le in Hlen.
        exists "", s. done.
      * exists (String c pre), tld. done.
    + intros ([| c' pre] & tld & Hs & Hlower & Hlen);
        cbn in Hs; injection Hs as -> ->.
      * left. rewrite Ascii.eqb_refl, Hlower. by apply Nat.leb_le in Hlen as ->.
      * right. eauto.
Qed.

Lemma mustBeEmail_string (n : string) (sec : bool) (s : string) :
  mustBeEmail (mkV (VString s) n sec) =
  if is_empty s then Throw (Error (n ++ " is not defined"))
  else if negb (contains "@" s) || negb (test_tld s)
       then Throw (Error "Value must be an email address.")
       else Return (mkV (VString s) n sec).
Proof. destruct s; reflexivity. Qed.

(** X19: [validEmail] lets [undefined] pass and [mustBeEmail] does not:
    it throws the error of [must] there.  Whenever [mustBeEmail] returns,
    it returns the envelope it was given, whose value is a string that
    holds an @ and ends in a dot and two or more lower-case letters;
    a string without that ending or without @ is refused with "Value must
    be an email address." *)
Theorem mustBeEmail_spec (v v' : V) :
  (mustBeEmail v = Return v' →
     v' = v
     ∧ ∃ s pre tld, value v = VString s ∧ contains "@" s = true
         ∧ s = String.append pre (String "." tld)
         ∧ all_lower tld = true ∧ (2 ≤ String.length tld)%nat)
  ∧ (value v = VUndefined →
     validEmail v = Return v
     ∧ mustBeEmail v = Throw (Error (name v ++ " is not defined")))
  ∧ (∀ s, value v = VString s → s ≠ "" →
     contains "@" s = false ∨ test_tld s = false →
     mustBeEmail v = Throw (Error "Value must be an email address.")).
Proof.
  destruct v as [x n sec]. cbn [value name].
  repeat apply conj.
  - destruct x as [| s | [| |] | | t |]; try discriminate.
    + rewrite mustBeEmail_string.
      destruct (is_empty s); [discriminate |].
      destruct (contains "@" s) eqn:Hat; [| discriminate].
      destruct (test_tld s) eqn:Htld; [| discriminate].
      cbn. intros [= <-]. split; [reflexivity |].
      apply test_tld_iff in Htld as (pre & tld & Hs & Hlower & Hlen).
      exists s, pre, tld. done.
    + unfold mustBeEmail, must; cbn. destruct (negb (Qzero _)); discriminate.
    + destruct b; discriminate.
  - intros ->. done.
  - intros s [= ->] Hs Hbad. rewrite mustBeEmail_string.
    destruct s as [| c s]; [done |]. cbn [is_empty].
    destruct Hbad as [-> | ->]; [reflexivity |]. by rewrite orb_true_r.
Qed.

Lemma mustBeEmail_spec_witness :
  mkV (VString "admin@example.com") "ADMIN_EMAIL" false =
  mkV (VString "admin@example.com") "ADMIN_EMAIL" false
  ∧ ∃ s pre tld, VString "admin@example.com" = VString s
      ∧ contains "@" s = true
      ∧ s = String.append pre (String "." tld)
      ∧ all_lower tld = true ∧ (2 ≤ String.length tld)%nat.
Proof.
  destruct (mustBeEmail_spec (mkV (VString "admin@example.com") "ADMIN_EMAIL" false)
              (mkV (VString "admin@example.com") "ADMIN_EMAIL" false))
    as [Hreturns _].
  apply Hreturns. reflexivity.
Defined.

(** ** The order of calls *)

Lemma pipe_tracing (l : list nat) (v : V) (calls : list event) :
  pipe (tracing_stage <$> l) v calls = (Return v, (calls ++ (Ran <$> l))%list).
Proof.
  revert calls. induction l as [| i l IH]; intros calls.
  - cbn. by rewrite app_nil_r.
  - rewrite fmap_cons, pipe_cons. unfold mbind, M_bind, tracing_stage at 1.
    rewrite IH, <- app_assoc. reflexivity.
Qed.

(** X20: a lookup through a bound evaluator calls the applier first,
    then the reader, once, then the stages of the pipeline, each once and
    from left to right; a lookup without transformer calls the reader
    and nothing else; a stage that throws is the last call made ([must]
    on a name the object neither owns nor inherits). *)
Theorem bind_call_order (env : BasicReader) (key : string) (l l' : list nat)
    (calls : list event) :
  bind (tracing_reader env) (Some tracing_applier) key
       (Some (pipe (tracing_stage <$> l))) calls =
    (Return (property env key),
     (calls ++ [Applied; Read key] ++ (Ran <$> l))%list)
  ∧ bind (tracing_reader env) (Some tracing_applier) key None calls =
    (Return (property env key), (calls ++ [Read key])%list)
  ∧ (env !! key = None → inherited key = None →
     bind (tracing_reader env) (Some tracing_applier) key
          (Some (pipe ((tracing_stage <$> l) ++ stage must :: (tracing_stage <$> l'))))
          calls =
     (Throw (Error (key ++ " is not defined")),
      (calls ++ [Applied; Read key] ++ (Ran <$> l))%list)).
Proof.
  repeat apply conj.
  - unfold bind. unfold mbind at 1, M_bind at 1, tracing_applier.
    rewrite ev_function_transform. unfold tracing_reader at 1.
    rewrite pipe_tracing, <- !app_assoc. reflexivity.
  - reflexivity.
  - intros Hmissing Hplain.
    unfold bind. unfold mbind at 1, M_bind at 1, tracing_applier.
    rewrite ev_function_transform. unfold tracing_reader at 1.
    rewrite pipe_app. unfold mbind at 1, M_bind at 1.
    rewrite pipe_tracing, pipe_must_first. cbn [value name].
    unfold property. rewrite Hmissing, Hplain. cbn. by rewrite <- !app_assoc.
Qed.

Lemma bind_call_order_witness :
  bind (tracing_reader ∅) (Some tracing_applier) "PORT"
       (Some (pipe ((tracing_stage <$> [1%nat]) ++ stage must
                    :: (tracing_stage <$> [2%nat])))) [] =
  (Throw (Error "PORT is not defined"), [Applied; Read "PORT"; Ran 1]).
Proof.
  destruct (bind_call_order ∅ "PORT" [1%nat] [2%nat] []) as (_ & _ & Hthrow).
  apply Hthrow; reflexivity.
Defined.

(** ** Secrecy and the value returned *)

(** X21: what [ev] returns does not depend on [secret]: with [secret]
    put anywhere before built-in stages of a pipeline, the lookup returns
    the same value or throws the same error, and leaves the same world;
    the flag only shows to an applier. *)
Theorem ev_ignores_secret `{DateParser} {W} (r : source) (key : string)
    (ts : list VT) (fs : list (V → result V)) (w : W) :
  Forall builtin fs →
  ev r key (Some (pipe (ts ++ stage (λ v, Return (secret v)) :: (stage <$> fs)))) w =
  ev r key (Some (pipe (ts ++ (stage <$> fs)))) w.
Proof.
  intros Hfs.
  assert (∀ (t t' : VT),
            (∀ v w0, match t v w0, t' v w0 with
                     | (Return a, w1), (Return b, w2) => value a = value b ∧ w1 = w2
                     | (Throw e, w1), (Throw e', w2) => e = e' ∧ w1 = w2
                     | _, _ => False
                     end) →
            ev r key (Some t) w = ev r key (Some t') w) as Hev.
  { intros t t' Hsame. unfold ev. unfold mbind at 1 3, M_bind at 1 3.
    destruct (match r with Function r0 => r0 key | Object r0 => _ end w)
      as [[v | e] w0]; [| reflexivity].
    specialize (Hsame v w0). unfold mbind, M_bind, mret, M_ret.
    destruct (t v w0) as [[a | e] w1], (t' v w0) as [[b | e'] w2];
      try done; by destruct Hsame as [-> ->]. }
  apply Hev. intros v w0. rewrite !pipe_app. unfold mbind, M_bind.
  destruct (pipe ts v w0) as [[v1 | e] w1]; [| done].
  rewrite pipe_cons. unfold mbind, M_bind, stage at 1.
  rewrite (pipe_on_secret fs v1 w1 Hfs).
  destruct (pipe (stage <$> fs) v1 w1) as [[v2 | e] w2]; done.
Qed.

Lemma ev_ignores_secret_witness :
  ev (W := unit) (Object {[ "PORT" := Some "8080" ]}) "PORT"
     (Some (pipe ([stage must] ++ stage (λ v, Return (secret v))
                  :: (stage <$> [λ v, asInt v None])))) () =
  ev (Object {[ "PORT" := Some "8080" ]}) "PORT"
     (Some (pipe ([stage must] ++ (stage <$> [λ v, asInt v None])))) ().
Proof.
  apply (@ev_ignores_secret strict_host unit). repeat constructor.
Defined.
